(** * Docker CLI wrappers of linuxkit's [pkglib] (src/cmd/linuxkit/pkglib/docker.go)

    A shallow embedding of [dockerRunner] and of the manifest-list and
    content-trust helpers, with the properties of the pipeline
    [pushWithManifest] and of its stages.

    Layout: the Go library functions the program calls, the data model,
    a small monad for the program's effects (subprocesses, registry calls,
    printing), the functions of docker.go in source order, then the
    theorems. *)

From Stdlib Require Import String Ascii List ZArith Bool Lia.
From Stdlib Require Import DecimalString.
Import ListNotations.

Local Open Scope string_scope.
Local Open Scope list_scope.

(** String concatenation (Go's [+] on strings, and [%s] in a format);
    [++] is kept for lists. *)
Infix "+:+" := String.append (at level 60, right associativity).

(** ** Go library functions *)

Module GoLib.

(** [strings.IndexByte(s, c) >= 0]. *)
Fixpoint hasByte (c : ascii) (s : string) : bool :=
  match s with
  | EmptyString => false
  | String a s' => if Ascii.eqb a c then true else hasByte c s'
  end.

(** [strings.Split(s, sep)] for a separator of one byte, the only form
    docker.go uses (":" and "/"): the substrings between the separators,
    in order; a string without separator is returned as its only
    element, the empty string included. *)
Fixpoint Split (s : string) (sep : ascii) : list string :=
  match s with
  | EmptyString => [EmptyString]
  | String a s' =>
      if Ascii.eqb a sep then EmptyString :: Split s' sep
      else match Split s' sep with
           | p :: ps => String a p :: ps
           | [] => [String a EmptyString]
           end
  end.

(** The part of [s] before the first [sep] (all of [s] without one). *)
Fixpoint beforeFirst (sep : ascii) (s : string) : string :=
  match s with
  | EmptyString => EmptyString
  | String a s' =>
      if Ascii.eqb a sep then EmptyString else String a (beforeFirst sep s')
  end.

(** The part of [s] after the first [sep] (empty without one). *)
Fixpoint afterFirst (sep : ascii) (s : string) : string :=
  match s with
  | EmptyString => EmptyString
  | String a s' => if Ascii.eqb a sep then s' else afterFirst sep s'
  end.

(** [strconv.Itoa], also the verb [%d] of [fmt].  A Go [int] is a [Z]
    here; the program only prints it. *)
Definition Itoa (n : Z) : string := NilZero.string_of_int (Z.to_int n).

(** [strings.Join(l, sep)]. *)
Definition Join (l : list string) (sep : string) : string :=
  String.concat sep l.

(** The verb [%v] of [fmt] on a [[]string]. *)
Definition fmtSlice (l : list string) : string := "[" +:+ Join l " " +:+ "]".

(** The line feed that [fmt.Println] and the [\n] of a format add. *)
Definition LF : string := String (ascii_of_nat 10) EmptyString.

(** [base64.StdEncoding.EncodeToString]: three bytes to four characters of
    the standard alphabet, the last group padded with [=]. *)
Definition b64Alphabet : string :=
  "ABCDEFGHIJKLMNOPQRSTUVWXYZabcdefghijklmnopqrstuvwxyz0123456789+/".

Definition b64Char (n : N) : ascii :=
  match String.get (N.to_nat n) b64Alphabet with
  | Some c => c
  | None => "="%char
  end.

Fixpoint EncodeToString (s : string) : string :=
  match s with
  | EmptyString => EmptyString
  | String a EmptyString =>
      let x := N_of_ascii a in
      String (b64Char (x / 4)) (String (b64Char ((x mod 4) * 16)) "==")
  | String a (String b EmptyString) =>
      let x := N_of_ascii a in
      let y := N_of_ascii b in
      String (b64Char (x / 4))
        (String (b64Char ((x mod 4) * 16 + y / 16))
           (String (b64Char ((y mod 16) * 4)) "="))
  | String a (String b (String c rest)) =>
      let x := N_of_ascii a in
      let y := N_of_ascii b in
      let z := N_of_ascii c in
      String (b64Char (x / 4))
        (String (b64Char ((x mod 4) * 16 + y / 16))
           (String (b64Char ((y mod 16) * 4 + z / 64))
              (String (b64Char (z mod 64)) (EncodeToString rest))))
  end%N.

(** [path.Clean]: the elements of the path between slashes, with empty
    elements and [.] dropped and [..] removing the element before it; a
    [..] with nothing to remove is kept in a relative path and dropped in a
    rooted one.  [out] is the result so far, last element first, and
    [dotdot] the number of [..] elements it starts with. *)
Fixpoint cleanElems (rooted : bool) (elems : list string)
  (out : list string) (dotdot : nat) : list string :=
  match elems with
  | [] => rev out
  | e :: rest =>
      if (e =? "") || (e =? ".") then cleanElems rooted rest out dotdot
      else if e =? ".." then
        if Nat.ltb dotdot (List.length out)
        then cleanElems rooted rest (tl out) dotdot
        else if rooted then cleanElems rooted rest out dotdot
        else cleanElems rooted rest (".." :: out) (S dotdot)
      else cleanElems rooted rest (e :: out) dotdot
  end.

Definition Clean (p : string) : string :=
  match p with
  | EmptyString => "."
  | String a _ =>
      let rooted := Ascii.eqb a "/" in
      let out := Join (cleanElems rooted (Split p "/") [] 0) "/" in
      if rooted then "/" +:+ out
      else if out =? "" then "." else out
  end.

(** [path.Join]: the non-empty elements joined by slashes, cleaned; the
    empty string when there is none. *)
Definition path_Join (elem : list string) : string :=
  match filter (fun e => negb (e =? "")) elem with
  | [] => ""
  | l => Clean (Join l "/")
  end.

End GoLib.
Import GoLib.

(** Go's [error] values, by dynamic type; [Error] is the method of the
    interface.  The program tells them apart by type switch
    ([*exec.ExitError]) and by type assertion ([*exec.Error], then its
    field [Err] against [exec.ErrNotFound]). *)
Inductive error : Type :=
| ExitError (msg : string)
    (** [*exec.ExitError]: the process ran and did not exit zero *)
| ExecError (name : string) (notFound : bool) (msg : string)
    (** [*exec.Error]; [notFound] is [Err == exec.ErrNotFound] *)
| Errorf (msg : string)
    (** the value [fmt.Errorf] builds *)
| OtherError (msg : string).
    (** an error of any other type *)

Definition Error (e : error) : string :=
  match e with
  | ExitError m | ExecError _ _ m | Errorf m | OtherError m => m
  end.


(** ** Data model *)

(** [dockertypes.AuthConfig], the fields the program reads. *)
Record AuthConfig : Type := {
  Username : string;
  Password : string
}.

(** [ocispec.Platform], the fields the program sets. *)
Record Platform : Type := {
  OS : string;
  Architecture : string;
  Variant : string
}.

(** [types.ManifestEntry] and [types.YAMLInput] of manifest-tool. *)
Record ManifestEntry : Type := {
  Image : string;
  EntryPlatform : Platform
}.

Record YAMLInput : Type := {
  ListImage : string;
  Manifests : list ManifestEntry
}.

(** The arguments of one call of [registry.PushManifestList], in the order
    of the call.  The comment at the call site names the first two flags
    (ignore missing, allow insecure); the third flag and the final string
    are named after the declaration in manifest-tool. *)
Record PushCall : Type := {
  pcUsername : string;
  pcPassword : string;
  pcInput : YAMLInput;
  pcIgnoreMissing : bool;
  pcInsecure : bool;
  pcPlainHttp : bool;
  pcConfigDir : string
}.

(** [buildContext]: an interface with the one method [Copy]; a value is
    known by what its [Copy] returns. *)
Record buildContext : Type := {
  Copy : option error
}.

Record dockerRunner : Type := {
  dct : bool;
  cache : bool;
  sign : bool;
  ctx : option buildContext
}.

Definition newDockerRunner (dct cache sign : bool) : dockerRunner :=
  {| dct := dct; cache := cache; sign := sign; ctx := None |}.

(** [exec.Cmd] as the program sets it up: the name given to
    [exec.Command], [Args] (the name first), [Env], and whether a pipe is
    attached to the standard input. *)
Record Cmd : Type := {
  Path : string;
  Args : list string;
  Env : list string;
  StdinPiped : bool
}.

(** ** Effects *)

(** What the program does to the outside, in order. *)
Inductive Event : Type :=
| EvPrint (s : string)             (** [fmt.Print], [Printf], [Println] *)
| EvDebug (s : string)             (** [log.Debugf] *)
| EvRun (c : Cmd)                  (** [cmd.Run] of a subprocess *)
| EvGetAuth (server : string)      (** the credential store is read *)
| EvPushManifestList (c : PushCall). (** the registry client is called *)

(** What the outside answers during one call: the environment of the
    process; what [cmd.Run] returns for a command; the error of
    [cmd.StdinPipe]; what [config.LoadDefaultConfigFile] followed by
    [GetAuthConfig] returns for a registry host; what
    [registry.PushManifestList] returns for a call.  [rangeKVs] is
    [json.Unmarshal] of a value into a [map[string]string] followed by the
    [range] over the map: the decoding error, or the pairs in the order
    the loop visits them (Go leaves that order open). *)
Record World : Type := {
  environ : list (string * string);
  runCmd : Cmd -> option error;
  stdinPipe : option error;
  getAuthConfig : string -> AuthConfig * option error;
  pushManifestList : PushCall -> string * Z * option error;
  rangeKVs : string -> error + list (string * string)
}.

(** A computation reads the world and yields a value, or a run-time
    panic, and the events up to there. *)
Inductive res (A : Type) : Type :=
| Val (a : A)
| GoPanic (msg : string).
Arguments Val {A} a.
Arguments GoPanic {A} msg.

Definition M (A : Type) : Type := World -> res A * list Event.

Definition ret {A} (a : A) : M A := fun _ => (Val a, []).

Definition bind {A B} (m : M A) (f : A -> M B) : M B :=
  fun w =>
    match m w with
    | (Val a, t) => let (r, t') := f a w in (r, t ++ t')
    | (GoPanic msg, t) => (GoPanic msg, t)
    end.

Definition panic {A} (msg : string) : M A := fun _ => (GoPanic msg, []).
Definition emit (e : Event) : M unit := fun _ => (Val tt, [e]).
Definition ask : M World := fun w => (Val w, []).

Declare Scope go_scope.
Delimit Scope go_scope with go.
Notation "x <- m ;; k" := (bind m (fun x => k))
  (at level 61, m at next level, right associativity) : go_scope.
Notation "' p <- m ;; k" := (bind m (fun x => match x with p => k end))
  (at level 61, p pattern, m at next level, right associativity) : go_scope.
Notation "m ;; k" := (bind m (fun _ => k))
  (at level 61, right associativity) : go_scope.
(** [err := m; if err != nil { return err }; k] *)
Notation "'check' m ;; k" :=
  (bind m (fun r => match r with Some e => ret (Some e) | None => k end))
  (at level 61, m at next level, right associativity) : go_scope.
Local Open Scope go_scope.

Definition Print (s : string) : M unit := emit (EvPrint s).
Definition Debugf (s : string) : M unit := emit (EvDebug s).

(** [os.LookupEnv], [os.Getenv], [os.Environ]; the environment holds one
    entry per name. *)
Fixpoint lookup (name : string) (l : list (string * string)) : option string :=
  match l with
  | [] => None
  | (k, v) :: l' => if k =? name then Some v else lookup name l'
  end.

Definition lookupEnv (w : World) (name : string) : option string :=
  lookup name (environ w).

Definition getenv (w : World) (name : string) : string :=
  match lookupEnv w name with
  | Some v => v
  | None => ""
  end.

Definition environStrings (w : World) : list string :=
  map (fun kv => fst kv +:+ "=" +:+ snd kv) (environ w).

Definition Getenv (name : string) : M string :=
  fun w => (Val (getenv w name), []).

Definition Environ : M (list string) :=
  fun w => (Val (environStrings w), []).

(** [cmd.Run]. *)
Definition Run (c : Cmd) : M (option error) :=
  fun w => (Val (runCmd w c), [EvRun c]).

(** ** docker.go *)

Definition dctEnableEnv : string := "DOCKER_CONTENT_TRUST=1".
Definition registryServer : string := "https://index.docker.io/v1/".
Definition notaryServer : string := "https://notary.docker.io".
Definition notaryDelegationPassphraseEnvVar : string := "NOTARY_DELEGATION_PASSPHRASE".
Definition notaryAuthEnvVar : string := "NOTARY_AUTH".
Definition dctEnvVar : string := "DOCKER_CONTENT_TRUST_REPOSITORY_PASSPHRASE".

Definition platforms : list string :=
  ["linux/amd64"; "linux/arm64"; "linux/s390x"; "linux/riscv64"].

Definition isExecErrNotFound (err : error) : bool :=
  match err with
  | ExecError _ notFound _ => notFound
  | _ => false
  end.

Definition proxyEnvVars : list string :=
  ["http_proxy"; "https_proxy"; "no_proxy"; "ftp_proxy"; "all_proxy";
   "HTTP_PROXY"; "HTTPS_PROXY"; "NO_PROXY"; "FTP_PROXY"; "ALL_PROXY"].

Definition buildArgsEnv : string := "LK_BUILD_ARGS".

(** The loop over [proxyEnvVars] of [command] (lines 102-107). *)
Definition proxyBuildArgs (w : World) : list string :=
  fold_left
    (fun buildArgs proxyVarName =>
       match lookupEnv w proxyVarName with
       | Some value =>
           buildArgs ++ ["--build-arg"; proxyVarName +:+ "=" +:+ value]
       | None => buildArgs
       end)
    proxyEnvVars [].

(** The build args of [buildArgsEnv] appended to [buildArgs]
    (lines 108-116): none when the variable is not set or when its value
    does not decode. *)
Definition extraBuildArgs (w : World) (buildArgs : list string) : list string :=
  match lookupEnv w buildArgsEnv with
  | Some value =>
      match rangeKVs w value with
      | inr KVs =>
          fold_left
            (fun buildArgs kv =>
               buildArgs ++ ["--build-arg"; fst kv +:+ "=" +:+ snd kv])
            KVs buildArgs
      | inl _ => buildArgs
      end
  | None => buildArgs
  end.

(** Lines 138-146 of [command]: the debug line, the run, and the result.
    [wait] is what [eg.Wait] returns: the result of the copy of the build
    context, which runs beside the process, or nil without one. *)
Definition runAndWait (cmd : Cmd) (dctS : string) (wait : option error)
  : M (option error) :=
  Debugf ("Executing: " +:+ dctS +:+ fmtSlice (Args cmd)) ;;
  r <- Run cmd ;;
  match r with
  | Some err =>
      if isExecErrNotFound err
      then ret (Some (Errorf "linuxkit pkg requires docker to be installed"))
      else ret (Some err)
  | None => ret wait
  end.

Definition command (dr : dockerRunner) (args : list string) : M (option error) :=
  env <- Environ ;;
  let isPush :=
    Nat.leb 2 (List.length args)
    && (nth 0 args "" =? "image") && (nth 1 args "" =? "push") in
  let trust := dct dr && (negb isPush || sign dr) in
  let env := if trust then env ++ [dctEnableEnv] else env in
  let dctS := if trust then dctEnableEnv +:+ " " else "" in
  let cmdArgs := "docker" :: args in
  match args with
  | [] => panic "runtime error: index out of range [0] with length 0"
  | arg0 :: _ =>
      if arg0 =? "build" then
        w <- ask ;;
        let buildArgs := extraBuildArgs w (proxyBuildArgs w) in
        let newArgs := firstn 2 cmdArgs ++ buildArgs ++ skipn 2 cmdArgs in
        match ctx dr with
        | Some c =>
            match stdinPipe w with
            | Some err => ret (Some err)
            | None =>
                runAndWait
                  {| Path := "docker";
                     Args := removelast newArgs ++ ["-"];
                     Env := env; StdinPiped := true |}
                  dctS (Copy c)
            end
        | None =>
            runAndWait
              {| Path := "docker"; Args := newArgs; Env := env;
                 StdinPiped := false |}
              dctS None
        end
      else
        runAndWait
          {| Path := "docker"; Args := cmdArgs; Env := env;
             StdinPiped := false |}
          dctS None
  end.

Definition pull (dr : dockerRunner) (img : string) : M (bool * option error) :=
  err <- command dr ["image"; "pull"; img] ;;
  match err with
  | None => ret (true, None)
  | Some (ExitError _) => ret (false, None)
  | Some e => ret (false, Some e)
  end.

Definition push (dr : dockerRunner) (img : string) : M (option error) :=
  command dr ["image"; "push"; img].

Definition tag (dr : dockerRunner) (ref tag : string) : M (option error) :=
  Print ("Tagging " +:+ ref +:+ " as " +:+ tag +:+ LF) ;;
  command dr ["image"; "tag"; ref; tag].

Definition build (dr : dockerRunner) (tag pkg : string) (opts : list string)
  : M (option error) :=
  let args := ["build"] in
  let args := if negb (cache dr) then args ++ ["--no-cache"] else args in
  let args := args ++ opts in
  let args := args ++ ["-t"; tag; pkg] in
  command dr args.

Definition save (dr : dockerRunner) (tgt : string) (refs : list string)
  : M (option error) :=
  command dr (["image"; "save"; "-o"; tgt] ++ refs).

Definition getDockerAuth : M (AuthConfig * option error) :=
  emit (EvGetAuth registryServer) ;;
  w <- ask ;;
  ret (getAuthConfig w registryServer).

(** The loop of [manifestPush] (lines 237-255) over the platform strings
    from index [i] on; [srcImages] holds the entries of the ones before. *)
Fixpoint manifestEntries (img : string) (i : nat) (platforms : list string)
  (srcImages : list ManifestEntry) : error + list ManifestEntry :=
  match platforms with
  | [] => inr srcImages
  | platform :: rest =>
      let osArchArr := Split platform "/" in
      let n := List.length osArchArr in
      if negb (Nat.eqb n 2) && negb (Nat.eqb n 3) then
        inl (Errorf ("platform argument " +:+ Itoa (Z.of_nat i)
                     +:+ " is not of form 'os/arch': '" +:+ platform +:+ "'"))
      else
        let os := nth 0 osArchArr "" in
        let arch := nth 1 osArchArr "" in
        let variant := if Nat.eqb n 3 then nth 2 osArchArr "" else "" in
        manifestEntries img (S i) rest
          (srcImages ++
             [{| Image := img +:+ "-" +:+ arch;
                 EntryPlatform :=
                   {| OS := os; Architecture := arch; Variant := variant |} |}])
  end.

(** [manifestPush] over a list of platform strings; the program's list is
    the package variable [platforms]. *)
Definition manifestPushOf (platforms : list string) (img : string)
  (auth : AuthConfig) : M (string * Z * option error) :=
  match manifestEntries img 0 platforms [] with
  | inl err => ret ("", 0%Z, Some err)
  | inr srcImages =>
      let yamlInput := {| ListImage := img; Manifests := srcImages |} in
      let call :=
        {| pcUsername := Username auth; pcPassword := Password auth;
           pcInput := yamlInput;
           pcIgnoreMissing := true; pcInsecure := false;
           pcPlainHttp := false; pcConfigDir := "" |} in
      emit (EvPushManifestList call) ;;
      w <- ask ;;
      ret (pushManifestList w call)
  end.

Definition manifestPush (img : string) (auth : AuthConfig)
  : M (string * Z * option error) :=
  manifestPushOf platforms img auth.

(** The argument vector [signManifest] gives to [exec.Command "notary"]
    (lines 285-299). *)
Definition notaryArgs (home repo tag : string) (length : Z) (hash : string)
  : list string :=
  ["-s"; notaryServer;
   "-d"; path_Join [home; ".docker/trust"];
   "addhash"; "-p"; "docker.io/" +:+ repo; tag; Itoa length;
   "--sha256"; hash;
   "-r"; "targets/releases"].

Definition signManifest (img digest : string) (length : Z) (auth : AuthConfig)
  : M (option error) :=
  let imgParts := Split img ":" in
  if Nat.ltb (List.length imgParts) 2 then
    ret (Some (Errorf ("image not composed of <repo>:<tag> '" +:+ img +:+ "'")))
  else
    let repo := nth 0 imgParts "" in
    let tag := nth 1 imgParts "" in
    let digestParts := Split digest ":" in
    if Nat.ltb (List.length digestParts) 2 then
      ret (Some (Errorf ("digest not composed of <algo>:<hash> '" +:+ digest +:+ "'")))
    else
      let algo := nth 0 digestParts "" in
      let hash := nth 1 digestParts "" in
      if negb (algo =? "sha256") then
        ret (Some (Errorf ("notary works with sha256 hash, not the provided " +:+ algo)))
      else
        let notaryAuth := EncodeToString (Username auth +:+ ":" +:+ Password auth) in
        home <- Getenv "HOME" ;;
        let args := notaryArgs home repo tag length hash in
        env <- Environ ;;
        pass <- Getenv dctEnvVar ;;
        let cmd :=
          {| Path := "notary"; Args := "notary" :: args;
             Env := (env ++ [notaryDelegationPassphraseEnvVar +:+ "=" +:+ pass;
                             notaryAuthEnvVar +:+ "=" +:+ notaryAuth]);
             StdinPiped := false |} in
        Debugf ("Executing: " +:+ fmtSlice (Args cmd)) ;;
        r <- Run cmd ;;
        match r with
        | Some err =>
            ret (Some (Errorf ("failed to execute notary-tool: " +:+ Error err)))
        | None =>
            Print ("Signed manifest index: " +:+ repo +:+ ":" +:+ tag +:+ LF) ;;
            ret None
        end.

Definition pushWithManifest (dr : dockerRunner) (img suffix : string)
  (pushImage pushManifest sign : bool) : M (option error) :=
  check (if pushImage then
           Print ("Pushing " +:+ img +:+ suffix +:+ LF) ;;
           push dr (img +:+ suffix)
         else
           Print ("Image push disabled, skipping..." +:+ LF) ;;
           ret None) ;;
  '(auth, err) <- getDockerAuth ;;
  match err with
  | Some e => ret (Some (Errorf ("failed to get auth: " +:+ Error e)))
  | None =>
      '(digest, l, err) <-
        (if pushManifest then
           Print ("Pushing " +:+ img +:+ suffix +:+ " to manifest " +:+ img +:+ LF) ;;
           manifestPush img auth
         else
           Print ("Manifest push disabled, skipping..." +:+ LF) ;;
           ret ("", 0%Z, None)) ;;
      match err with
      | Some e => ret (Some e)
      | None =>
          if negb (dct dr) then
            Print ("trust disabled, not signing" +:+ LF) ;;
            ret None
          else if negb sign then
            Print ("signing disabled, not signing" +:+ LF) ;;
            ret None
          else
            Print ("Signing manifest for " +:+ img +:+ LF) ;;
            signManifest img digest l auth
      end
  end.

(** The subprocesses run in a trace, in order. *)
Fixpoint runs (t : list Event) : list Cmd :=
  match t with
  | [] => []
  | EvRun c :: t' => c :: runs t'
  | _ :: t' => runs t'
  end.

(** The calls of the registry client in a trace, in order. *)
Fixpoint registryCalls (t : list Event) : list PushCall :=
  match t with
  | [] => []
  | EvPushManifestList c :: t' => c :: registryCalls t'
  | _ :: t' => registryCalls t'
  end.

(** A hexadecimal digit, and a string of 64 of them (the hash of a
    sha256 digest). *)
Definition isHexDigit (a : ascii) : bool :=
  let n := nat_of_ascii a in
  (Nat.leb 48 n && Nat.leb n 57) || (Nat.leb 97 n && Nat.leb n 102)
  || (Nat.leb 65 n && Nat.leb n 70).

Fixpoint allHex (s : string) : bool :=
  match s with
  | EmptyString => true
  | String a s' => isHexDigit a && allHex s'
  end.

Definition isHex64 (s : string) : bool :=
  Nat.eqb (String.length s) 64 && allHex s.

(** A platform target as the specification describes it, the string it
    is written as, and the manifest entry the specification asks for. *)
Record PlatformTarget : Type := {
  ptOS : string;
  ptArch : string;
  ptVariant : option string
}.

Definition render (t : PlatformTarget) : string :=
  match ptVariant t with
  | None => ptOS t +:+ "/" +:+ ptArch t
  | Some v => ptOS t +:+ "/" +:+ ptArch t +:+ "/" +:+ v
  end.

Definition slashFree (t : PlatformTarget) : Prop :=
  hasByte "/" (ptOS t) = false /\ hasByte "/" (ptArch t) = false
  /\ match ptVariant t with
     | None => True
     | Some v => hasByte "/" v = false
     end.

Definition entryFor (img : string) (t : PlatformTarget) : ManifestEntry :=
  {| Image := img +:+ "-" +:+ ptArch t;
     EntryPlatform :=
       {| OS := ptOS t; Architecture := ptArch t;
          Variant := match ptVariant t with Some v => v | None => "" end |} |}.

Definition partCount (platform : string) : nat :=
  List.length (Split platform "/").

(** ** Sample inputs *)

Definition sampleAuth : AuthConfig :=
  {| Username := "user"; Password := "pass" |}.

Definition sampleHex : string :=
  "9f86d081884c7d659a2feaa0c55ad015a3bf4f1b2b0b822cd15d6c15b0f00a08".

(** Every subprocess exits zero, the credentials are found, the registry
    accepts the manifest list. *)
Definition quietWorld : World :=
  {| environ := [("HOME", "/root")];
     runCmd := fun _ => None;
     stdinPipe := None;
     getAuthConfig := fun _ => (sampleAuth, None);
     pushManifestList := fun _ => ("sha256:" +:+ sampleHex, 1234%Z, None);
     rangeKVs := fun _ => inr [] |}.

(** As [quietWorld], but the credential store answers with an error. *)
Definition noCredentialsWorld : World :=
  {| environ := [("HOME", "/root")];
     runCmd := fun _ => None;
     stdinPipe := None;
     getAuthConfig :=
       fun _ => ({| Username := ""; Password := "" |},
                 Some (OtherError "error getting credentials"));
     pushManifestList := fun _ => ("sha256:" +:+ sampleHex, 1234%Z, None);
     rangeKVs := fun _ => inr [] |}.

(** A proxy is set and [LK_BUILD_ARGS] holds a value that does not
    decode. *)
Definition badJSONWorld : World :=
  {| environ := [("HOME", "/root"); ("http_proxy", "http://proxy:3128");
                 ("LK_BUILD_ARGS", "{not json")];
     runCmd := fun _ => None;
     stdinPipe := None;
     getAuthConfig := fun _ => (sampleAuth, None);
     pushManifestList := fun _ => ("sha256:" +:+ sampleHex, 1234%Z, None);
     rangeKVs :=
       fun _ => inl (OtherError "invalid character 'n' looking for beginning of object key string") |}.

(** The test [isPush] of [command] (line 92). *)
Definition isPush (args : list string) : bool :=
  Nat.leb 2 (List.length args)
  && (nth 0 args "" =? "image") && (nth 1 args "" =? "push").

(** The environment [command] gives the engine: content trust is switched
    on by one more entry. *)
Definition engineEnv (w : World) (trust : bool) : list string :=
  if trust then environStrings w ++ [dctEnableEnv] else environStrings w.

(** What [command] returns for the error of [cmd.Run]. *)
Definition reported (err : error) : error :=
  if isExecErrNotFound err
  then Errorf "linuxkit pkg requires docker to be installed"
  else err.

(** The two arguments a build arg takes on the command line. *)
Definition buildArgPair (k v : string) : list string :=
  ["--build-arg"; k +:+ "=" +:+ v].

Definition proxyPair (w : World) (name : string) : list string :=
  match lookupEnv w name with
  | Some value => buildArgPair name value
  | None => []
  end.

(** More sample inputs: a runner with a build context; a world whose
    engine exits non-zero; one whose registry refuses the manifest list;
    one whose [LK_BUILD_ARGS] decodes; one with an empty environment. *)
Definition contextRunner : dockerRunner :=
  {| dct := true; cache := false; sign := false;
     ctx := Some {| Copy := None |} |}.

Definition failingEngineWorld : World :=
  {| environ := [("HOME", "/root")];
     runCmd := fun _ => Some (ExitError "exit status 1");
     stdinPipe := None;
     getAuthConfig := fun _ => (sampleAuth, None);
     pushManifestList := fun _ => ("sha256:" +:+ sampleHex, 1234%Z, None);
     rangeKVs := fun _ => inr [] |}.

Definition registryDownWorld : World :=
  {| environ := [("HOME", "/root")];
     runCmd := fun _ => None;
     stdinPipe := None;
     getAuthConfig := fun _ => (sampleAuth, None);
     pushManifestList :=
       fun _ => ("", 0%Z, Some (OtherError "unauthorized: access denied"));
     rangeKVs := fun _ => inr [] |}.

Definition quoted (s : string) : string :=
  String (ascii_of_nat 34) (s +:+ String (ascii_of_nat 34) EmptyString).

Definition buildArgsWorld : World :=
  {| environ := [("HOME", "/root"); ("HTTPS_PROXY", "http://proxy:3128");
                 ("no_proxy", "");
                 ("LK_BUILD_ARGS",
                  "{" +:+ quoted "KERNEL" +:+ ":" +:+ quoted "5.10" +:+ ","
                  +:+ quoted "ARCH" +:+ ":" +:+ quoted "arm64" +:+ "}")];
     runCmd := fun _ => None;
     stdinPipe := None;
     getAuthConfig := fun _ => (sampleAuth, None);
     pushManifestList := fun _ => ("sha256:" +:+ sampleHex, 1234%Z, None);
     rangeKVs := fun _ => inr [("KERNEL", "5.10"); ("ARCH", "arm64")] |}.

Definition bareWorld : World :=
  {| environ := [];
     runCmd := fun _ => None;
     stdinPipe := None;
     getAuthConfig := fun _ => (sampleAuth, None);
     pushManifestList := fun _ => ("sha256:" +:+ sampleHex, 1234%Z, None);
     rangeKVs := fun _ => inr [] |}.

(** The command [signManifest] runs for a repository, a tag, a length and
    a hash (lines 283-303). *)
Definition notaryCmd (w : World) (auth : AuthConfig) (repo tag : string)
  (length : Z) (hash : string) : Cmd :=
  {| Path := "notary";
     Args := "notary" :: notaryArgs (getenv w "HOME") repo tag length hash;
     Env := environStrings w ++
            [notaryDelegationPassphraseEnvVar +:+ "=" +:+ getenv w dctEnvVar;
             notaryAuthEnvVar +:+ "="
               +:+ EncodeToString (Username auth +:+ ":" +:+ Password auth)];
     StdinPiped := false |}.

(** A world without the engine binary. *)
Definition noEngineWorld : World :=
  {| environ := [("HOME", "/root")];
     runCmd :=
       fun c => Some (ExecError (Path c) true
                        ("exec: " +:+ quoted (Path c)
                         +:+ ": executable file not found in $PATH"));
     stdinPipe := None;
     getAuthConfig := fun _ => (sampleAuth, None);
     pushManifestList := fun _ => ("sha256:" +:+ sampleHex, 1234%Z, None);
     rangeKVs := fun _ => inr [] |}.

(** A world with the passphrase of the trust repository and no [HOME]. *)
Definition passphraseWorld : World :=
  {| environ := [("DOCKER_CONTENT_TRUST_REPOSITORY_PASSPHRASE", "secret")];
     runCmd := fun _ => None;
     stdinPipe := None;
     getAuthConfig := fun _ => (sampleAuth, None);
     pushManifestList := fun _ => ("sha256:" +:+ sampleHex, 1234%Z, None);
     rangeKVs := fun _ => inr [] |}.

(** As [quietWorld], with [DOCKER_CONTENT_TRUST=1] in the environment of
    the process already. *)
Definition trustingWorld : World :=
  {| environ := [("HOME", "/root"); ("DOCKER_CONTENT_TRUST", "1")];
     runCmd := fun _ => None;
     stdinPipe := None;
     getAuthConfig := fun _ => (sampleAuth, None);
     pushManifestList := fun _ => ("sha256:" +:+ sampleHex, 1234%Z, None);
     rangeKVs := fun _ => inr [] |}.

(** ** Examples *)

Example Split_platform : Split "linux/amd64" "/" = ["linux"; "amd64"].
Proof. reflexivity. Qed.

Example Split_empty : Split "" ":" = [""].
Proof. reflexivity. Qed.

Example Split_trailing : Split "repo:" ":" = ["repo"; ""].
Proof. reflexivity. Qed.

Example Split_port :
  Split "host:5000/repo:tag" ":" = ["host"; "5000/repo"; "tag"].
Proof. reflexivity. Qed.

Example Itoa_values : Itoa (-42) = "-42" /\ Itoa 0 = "0" /\ Itoa 1234 = "1234".
Proof. repeat split. Qed.

Example EncodeToString_values :
  EncodeToString "user:pass" = "dXNlcjpwYXNz"
  /\ EncodeToString "a" = "YQ==" /\ EncodeToString "ab" = "YWI=".
Proof. repeat split. Qed.

Example path_Join_values :
  path_Join ["/root"; ".docker/trust"] = "/root/.docker/trust"
  /\ path_Join [""; ".docker/trust"] = ".docker/trust"
  /\ path_Join ["/root/"; ".docker/trust"] = "/root/.docker/trust"
  /\ path_Join ["/a/../../b/./c//"; "../x"] = "/b/x".
Proof. repeat split. Qed.

(** ** Splitting *)

Section SplitFacts.

Variable sep : ascii.

Lemma Split_cons (s : string) : exists p ps, Split s sep = p :: ps.
Proof.
  induction s as [|a s IH]; simpl.
  - now exists EmptyString, [].
  - destruct (Ascii.eqb a sep).
    + now exists EmptyString, (Split s sep).
    + destruct IH as (p & ps & ->). now exists (String a p), ps.
Qed.

Lemma Split_head (s : string) : nth 0 (Split s sep) "" = beforeFirst sep s.
Proof.
  induction s as [|a s IH]; simpl; [reflexivity|].
  destruct (Ascii.eqb a sep); [reflexivity|].
  destruct (Split_cons s) as (p & ps & E). rewrite E in *. simpl in *.
  now rewrite IH.
Qed.

Lemma Split_without (s : string) : hasByte sep s = false -> Split s sep = [s].
Proof.
  induction s as [|a s IH]; simpl; [reflexivity|].
  destruct (Ascii.eqb a sep); [discriminate|].
  intros H. now rewrite (IH H).
Qed.

Lemma Split_with (s : string) :
  hasByte sep s = true -> 2 <= List.length (Split s sep).
Proof.
  induction s as [|a s IH]; simpl; [discriminate|].
  destruct (Ascii.eqb a sep).
  - intros _. destruct (Split_cons s) as (p & ps & ->). simpl. lia.
  - intros H. specialize (IH H).
    destruct (Split s sep) as [|p ps]; simpl in *; lia.
Qed.

Lemma Split_short_iff (s : string) :
  Nat.ltb (List.length (Split s sep)) 2 = true <-> hasByte sep s = false.
Proof.
  split.
  - intros H. apply Nat.ltb_lt in H.
    destruct (hasByte sep s) eqn:E; [|reflexivity].
    apply Split_with in E. lia.
  - intros H. now rewrite (Split_without s H).
Qed.

Lemma Split_app (a b : string) :
  hasByte sep a = false ->
  Split (a +:+ String sep b) sep = a :: Split b sep.
Proof.
  induction a as [|c a IH]; simpl.
  - intros _. now rewrite Ascii.eqb_refl.
  - destruct (Ascii.eqb c sep); [discriminate|].
    intros H. now rewrite (IH H).
Qed.

End SplitFacts.

Lemma allHex_no_colon (s : string) : allHex s = true -> hasByte ":" s = false.
Proof.
  induction s as [|a s IH]; simpl; [reflexivity|].
  intros H. apply andb_true_iff in H. destruct H as [Ha Hs].
  destruct (Ascii.eqb_spec a ":"%char) as [->|_]; [discriminate|].
  now apply IH.
Qed.

Lemma isHex64_no_colon (s : string) : isHex64 s = true -> hasByte ":" s = false.
Proof.
  unfold isHex64. intros H. apply andb_true_iff in H.
  now apply allHex_no_colon.
Qed.

(** ** The Trust Signer: [signManifest] *)

(** C2 (as amended).  An image reference without [:] is rejected: the
    image-validation error is returned and nothing at all has happened
    before, in particular no subprocess has been run. *)
Theorem signManifest_image_without_colon
  (img digest : string) (length : Z) (auth : AuthConfig) (w : World) :
  hasByte ":" img = false ->
  signManifest img digest length auth w =
    (Val (Some (Errorf ("image not composed of <repo>:<tag> '" +:+ img +:+ "'"))),
     []).
Proof.
  intros H. unfold signManifest.
  now rewrite (proj2 (Split_short_iff ":" img) H).
Qed.

(** The check is on the number of parts only: a reference with a [:],
    whatever follows it, is never answered with that error. *)
Lemma signManifest_image_with_colon
  (img digest : string) (length : Z) (auth : AuthConfig) (w : World) :
  hasByte ":" img = true ->
  fst (signManifest img digest length auth w) <>
    Val (Some (Errorf ("image not composed of <repo>:<tag> '" +:+ img +:+ "'"))).
Proof.
  intros H. unfold signManifest.
  destruct (Nat.ltb (List.length (Split img ":")) 2) eqn:E.
  - apply Split_short_iff in E. congruence.
  - destruct (Nat.ltb (List.length (Split digest ":")) 2);
      [simpl; intros [=] |].
    destruct (negb (nth 0 (Split digest ":") "" =? "sha256"));
      [simpl; intros [=] |].
    unfold bind, Getenv, Environ, Debugf, Print, emit, Run, ret; simpl.
    destruct (runCmd w _); simpl; intros [=].
Qed.

(** C7.  A digest whose part before the first [:] is not [sha256] is
    rejected with a validation error, whatever the image reference and
    the hash are, and nothing has happened before: no subprocess is run. *)
Theorem signManifest_algorithm_not_sha256
  (img digest : string) (length : Z) (auth : AuthConfig) (w : World) :
  beforeFirst ":" digest <> "sha256" ->
  exists msg,
    signManifest img digest length auth w = (Val (Some (Errorf msg)), []).
Proof.
  intros H. unfold signManifest.
  destruct (Nat.ltb (List.length (Split img ":")) 2); [now eexists|].
  destruct (Nat.ltb (List.length (Split digest ":")) 2); [now eexists|].
  rewrite Split_head.
  destruct (String.eqb_spec (beforeFirst ":" digest) "sha256") as [E|_];
    [contradiction|].
  now eexists.
Qed.

(** The run of the signing tool on a reference [repo:tag] and a digest
    [sha256:hash] whose parts hold no [:]. *)
Lemma signManifest_valid
  (repo tag hash : string) (length : Z) (auth : AuthConfig) (w : World) :
  hasByte ":" repo = false -> hasByte ":" tag = false ->
  hasByte ":" hash = false ->
  runs (snd (signManifest (repo +:+ ":" +:+ tag) ("sha256:" +:+ hash)
               length auth w)) =
    [{| Path := "notary";
        Args := "notary" :: notaryArgs (getenv w "HOME") repo tag length hash;
        Env := environStrings w ++
               [notaryDelegationPassphraseEnvVar +:+ "=" +:+ getenv w dctEnvVar;
                notaryAuthEnvVar +:+ "="
                  +:+ EncodeToString (Username auth +:+ ":" +:+ Password auth)];
        StdinPiped := false |}].
Proof.
  intros Hr Ht Hh. unfold signManifest.
  change (repo +:+ ":" +:+ tag) with (repo +:+ String ":" tag).
  change ("sha256:" +:+ hash) with ("sha256" +:+ String ":" hash).
  rewrite (Split_app ":" repo tag Hr), (Split_app ":" "sha256" hash eq_refl).
  rewrite (Split_without ":" tag Ht), (Split_without ":" hash Hh).
  cbn [List.length Nat.ltb Nat.leb nth negb String.eqb Ascii.eqb Bool.eqb].
  unfold bind, Getenv, Environ, Debugf, Print, emit, Run, ret.
  destruct (runCmd w _); reflexivity.
Qed.

(** C5 (as amended).  For a reference [repo:tag] and a digest
    [sha256:<64 hex characters>], exactly one subprocess is run, the
    signing tool, and its argument vector carries [tag] and the hash as
    arguments of their own, unchanged, and [repo] unchanged behind the
    namespace [docker.io/]. *)
Theorem signManifest_arguments
  (repo tag hex : string) (length : Z) (auth : AuthConfig) (w : World) :
  hasByte ":" repo = false -> hasByte ":" tag = false -> isHex64 hex = true ->
  exists cmd,
    runs (snd (signManifest (repo +:+ ":" +:+ tag) ("sha256:" +:+ hex)
                 length auth w)) = [cmd]
    /\ Path cmd = "notary"
    /\ Args cmd =
         ["notary"; "-s"; "https://notary.docker.io";
          "-d"; path_Join [getenv w "HOME"; ".docker/trust"];
          "addhash"; "-p"; "docker.io/" +:+ repo; tag; Itoa length;
          "--sha256"; hex; "-r"; "targets/releases"].
Proof.
  intros Hr Ht Hh. apply isHex64_no_colon in Hh.
  eexists. rewrite (signManifest_valid repo tag hex length auth w Hr Ht Hh).
  repeat split.
Qed.

(** ** The Manifest Composer: [manifestPush] *)

Lemma Split_join (sep : ascii) (s : string) :
  String.concat (String sep "") (Split s sep) = s.
Proof.
  induction s as [|a s IH]; simpl; [reflexivity|].
  destruct (Split_cons sep s) as (p & ps & E). rewrite E in *.
  destruct (Ascii.eqb_spec a sep) as [->|_];
    rewrite <- IH; destruct ps; reflexivity.
Qed.

Lemma Split_parts (sep : ascii) (s : string) :
  Forall (fun p => hasByte sep p = false) (Split s sep).
Proof.
  induction s as [|a s IH]; simpl; [now repeat constructor|].
  destruct (Ascii.eqb a sep) eqn:E; [now constructor|].
  destruct (Split_cons sep s) as (p & ps & Es). rewrite Es in *.
  inversion IH; subst. constructor; [|assumption].
  simpl. now rewrite E.
Qed.

Lemma Split_render (t : PlatformTarget) :
  slashFree t ->
  Split (render t) "/" =
    match ptVariant t with
    | None => [ptOS t; ptArch t]
    | Some v => [ptOS t; ptArch t; v]
    end.
Proof.
  unfold slashFree, render. intros (Ho & Ha & Hv).
  destruct (ptVariant t) as [v|].
  - change (ptOS t +:+ "/" +:+ ptArch t +:+ "/" +:+ v)
      with (ptOS t +:+ String "/" (ptArch t +:+ String "/" v)).
    now rewrite (Split_app "/" _ _ Ho), (Split_app "/" _ _ Ha),
      (Split_without "/" v Hv).
  - change (ptOS t +:+ "/" +:+ ptArch t)
      with (ptOS t +:+ String "/" (ptArch t)).
    now rewrite (Split_app "/" _ _ Ho), (Split_without "/" _ Ha).
Qed.

(** A string of two or three parts is the rendering of a target. *)
Lemma render_surjective (platform : string) :
  partCount platform = 2 \/ partCount platform = 3 ->
  exists t, slashFree t /\ render t = platform.
Proof.
  unfold partCount. intros H.
  pose proof (Split_join "/" platform) as J.
  pose proof (Split_parts "/" platform) as P.
  destruct (Split platform "/") as [|a [|b [|c [|d l]]]];
    simpl in H; try (destruct H; discriminate).
  - inversion P as [|? ? Pa P1]; subst. inversion P1 as [|? ? Pb _]; subst.
    exists {| ptOS := a; ptArch := b; ptVariant := None |}.
    split; [now repeat split|reflexivity].
  - inversion P as [|? ? Pa P1]; subst. inversion P1 as [|? ? Pb P2]; subst.
    inversion P2 as [|? ? Pc _]; subst.
    exists {| ptOS := a; ptArch := b; ptVariant := Some c |}.
    split; [now repeat split|reflexivity].
Qed.

Lemma manifestEntries_render (img : string) (ts : list PlatformTarget) :
  Forall slashFree ts ->
  forall i srcImages,
    manifestEntries img i (map render ts) srcImages =
      inr (srcImages ++ map (entryFor img) ts).
Proof.
  induction 1 as [|t ts Ht _ IH]; intros i srcImages.
  - simpl. now rewrite app_nil_r.
  - destruct t as [o a v].
    cbn [map manifestEntries]. rewrite (Split_render _ Ht).
    destruct v; cbn; rewrite IH, <- app_assoc; reflexivity.
Qed.

Lemma manifestEntries_malformed (img platform : string)
  (pre : list PlatformTarget) (post : list string) :
  Forall slashFree pre ->
  partCount platform <> 2 -> partCount platform <> 3 ->
  forall i srcImages,
    manifestEntries img i (map render pre ++ platform :: post) srcImages =
      inl (Errorf ("platform argument "
                   +:+ Itoa (Z.of_nat (i + List.length pre))
                   +:+ " is not of form 'os/arch': '" +:+ platform +:+ "'")).
Proof.
  unfold partCount. intros Hpre H2 H3.
  induction Hpre as [|t ts Ht _ IH]; intros i srcImages.
  - cbn [map app manifestEntries List.length].
    apply Nat.eqb_neq in H2, H3. rewrite H2, H3, Nat.add_0_r. reflexivity.
  - destruct t as [o a v].
    cbn [map app manifestEntries List.length]. rewrite (Split_render _ Ht).
    destruct v; cbn; rewrite IH;
      now replace (S i + List.length ts) with (i + S (List.length ts)) by lia.
Qed.

(** C6.  [manifestPush] over any list of platform strings.  When every
    string has two or three parts ([os/arch] or [os/arch/variant]) the
    registry is called once, with one entry per string in the order of the
    list, each with the image reference [img-arch] and with os,
    architecture and variant as written (no variant: empty).  When the
    first string of another part count stands at position [i], the result
    is the validation error that names [i] and the string, and nothing has
    happened: the registry is not called.  Every string of two or three
    parts is covered by the first case. *)
Theorem manifestPush_entries
  (img : string) (auth : AuthConfig) (w : World) :
  (forall ts : list PlatformTarget,
      Forall slashFree ts ->
      let call :=
        {| pcUsername := Username auth; pcPassword := Password auth;
           pcInput := {| ListImage := img; Manifests := map (entryFor img) ts |};
           pcIgnoreMissing := true; pcInsecure := false;
           pcPlainHttp := false; pcConfigDir := "" |} in
      manifestPushOf (map render ts) img auth w =
        (Val (pushManifestList w call), [EvPushManifestList call]))
  /\ (forall (pre : list PlatformTarget) (platform : string) (post : list string),
         Forall slashFree pre ->
         partCount platform <> 2 -> partCount platform <> 3 ->
         manifestPushOf (map render pre ++ platform :: post) img auth w =
           (Val ("", 0%Z,
                 Some (Errorf ("platform argument "
                               +:+ Itoa (Z.of_nat (List.length pre))
                               +:+ " is not of form 'os/arch': '"
                               +:+ platform +:+ "'"))),
            []))
  /\ (forall platform : string,
         partCount platform = 2 \/ partCount platform = 3 ->
         exists t, slashFree t /\ render t = platform).
Proof.
  split; [|split].
  - intros ts Hts call. unfold manifestPushOf.
    now rewrite (manifestEntries_render img ts Hts).
  - intros pre platform post Hpre H2 H3. unfold manifestPushOf.
    now rewrite (manifestEntries_malformed img platform pre post Hpre H2 H3).
  - exact render_surjective.
Qed.

(** C1 (as amended).  [manifestPush] calls the registry client once, with
    the image, the four entries of the platform list ([img-amd64],
    [img-arm64], [img-s390x], [img-riscv64], each with os [linux], its
    architecture and no variant, in this order) and the credentials, and
    with the policy: ignore missing entries set, allow insecure not set,
    the third flag not set, the final string empty.  What the registry
    client returns is returned. *)
Theorem manifestPush_policy (img : string) (auth : AuthConfig) (w : World) :
  let entry (arch : string) :=
    {| Image := img +:+ "-" +:+ arch;
       EntryPlatform :=
         {| OS := "linux"; Architecture := arch; Variant := "" |} |} in
  let call :=
    {| pcUsername := Username auth; pcPassword := Password auth;
       pcInput :=
         {| ListImage := img;
            Manifests := [entry "amd64"; entry "arm64"; entry "s390x";
                          entry "riscv64"] |};
       pcIgnoreMissing := true; pcInsecure := false;
       pcPlainHttp := false; pcConfigDir := "" |} in
  manifestPush img auth w =
    (Val (pushManifestList w call), [EvPushManifestList call]).
Proof. reflexivity. Qed.

(** C10.  Each string of the fixed platform list has exactly two parts,
    so the loop of [manifestPush] builds its four entries without error,
    and every run of [manifestPush] calls the registry client and returns
    what it returns. *)
Theorem platforms_reach_registry :
  platforms = ["linux/amd64"; "linux/arm64"; "linux/s390x"; "linux/riscv64"]
  /\ Forall (fun platform => partCount platform = 2) platforms
  /\ forall (img : string) (auth : AuthConfig) (w : World),
      (exists srcImages,
          manifestEntries img 0 platforms [] = inr srcImages
          /\ List.length srcImages = 4)
      /\ (exists call,
             manifestPush img auth w =
               (Val (pushManifestList w call), [EvPushManifestList call])).
Proof.
  split; [reflexivity|]. split; [repeat constructor|].
  intros img auth w. split; eexists; [split|]; cbn; reflexivity.
Qed.

(** ** The Command Executor: [command], [pull], [push] *)

Lemma runAndWait_run (cmd : Cmd) (dctS : string) (wait : option error) (w : World) :
  runAndWait cmd dctS wait w =
    (Val (match runCmd w cmd with
          | Some err =>
              Some (if isExecErrNotFound err
                    then Errorf "linuxkit pkg requires docker to be installed"
                    else err)
          | None => wait
          end),
     [EvDebug ("Executing: " +:+ dctS +:+ fmtSlice (Args cmd)); EvRun cmd]).
Proof.
  unfold runAndWait, bind, Debugf, emit, Run, ret.
  destruct (runCmd w cmd) as [err|]; [destruct (isExecErrNotFound err)|];
    reflexivity.
Qed.

(** The command that [pull] runs. *)
Lemma pull_command (dr : dockerRunner) (img : string) (w : World) :
  command dr ["image"; "pull"; img] w =
    runAndWait
      {| Path := "docker"; Args := ["docker"; "image"; "pull"; img];
         Env := if dct dr then environStrings w ++ [dctEnableEnv]
                else environStrings w;
         StdinPiped := false |}
      (if dct dr then dctEnableEnv +:+ " " else "") None w.
Proof.
  unfold command, bind, Environ. cbn -[runAndWait]. rewrite !runAndWait_run.
  destruct (dct dr); reflexivity.
Qed.

(** The command that [push] runs: content trust is switched on for it
    only when the runner signs. *)
Lemma push_command (dr : dockerRunner) (img : string) (w : World) :
  push dr img w =
    runAndWait
      {| Path := "docker"; Args := ["docker"; "image"; "push"; img];
         Env := if dct dr && sign dr then environStrings w ++ [dctEnableEnv]
                else environStrings w;
         StdinPiped := false |}
      (if dct dr && sign dr then dctEnableEnv +:+ " " else "") None w.
Proof.
  unfold push, command, bind, Environ. cbn -[runAndWait].
  rewrite !runAndWait_run.
  destruct (dct dr), (sign dr); reflexivity.
Qed.

(** C4.  [pull] runs [docker image pull img] and sorts the outcome: no
    error gives [(true, nil)]; an exit error of the process gives
    [(false, nil)]; any other error is returned with [false], the missing
    binary as the tool-not-installed error.  [(false, nil)] is returned
    for exit errors only. *)
Theorem pull_classifies (dr : dockerRunner) (img : string) (w : World) :
  let cmd :=
    {| Path := "docker"; Args := ["docker"; "image"; "pull"; img];
       Env := if dct dr then environStrings w ++ [dctEnableEnv]
              else environStrings w;
       StdinPiped := false |} in
  runs (snd (pull dr img w)) = [cmd]
  /\ fst (pull dr img w) =
       Val (match runCmd w cmd with
            | None => (true, None)
            | Some (ExitError _) => (false, None)
            | Some (ExecError _ true _) =>
                (false, Some (Errorf "linuxkit pkg requires docker to be installed"))
            | Some err => (false, Some err)
            end)
  /\ (fst (pull dr img w) = Val (false, None)
      <-> exists msg, runCmd w cmd = Some (ExitError msg)).
Proof.
  intros cmd. unfold pull, bind.
  rewrite pull_command, runAndWait_run. fold cmd.
  destruct (runCmd w cmd) as [[m|n [|] m|m|m]|]; cbn;
    (split; [reflexivity|split; [reflexivity|]]);
    split; try (intros [=]); try (intros (msg & [=])); eauto.
Qed.

(** C9.  When [LK_BUILD_ARGS] is set to a value that does not decode, a
    build adds no build arg from it: the engine is run with the proxy
    build args alone between [build] and the other arguments, and the
    result is the result of that run (of the copy of the build context
    after a run that exits zero).  The decoding error is returned nowhere;
    the only error before the run is the one of the pipe for the build
    context. *)
Theorem command_build_malformed_args
  (dr : dockerRunner) (rest : list string) (w : World)
  (value : string) (e : error) :
  lookupEnv w buildArgsEnv = Some value ->
  rangeKVs w value = inl e ->
  let env := if dct dr then environStrings w ++ [dctEnableEnv]
             else environStrings w in
  let dctS := if dct dr then dctEnableEnv +:+ " " else "" in
  let newArgs := "docker" :: "build" :: proxyBuildArgs w ++ rest in
  let cmd :=
    match ctx dr with
    | Some _ => {| Path := "docker"; Args := removelast newArgs ++ ["-"];
                   Env := env; StdinPiped := true |}
    | None => {| Path := "docker"; Args := newArgs;
                 Env := env; StdinPiped := false |}
    end in
  command dr ("build" :: rest) w =
    match ctx dr, stdinPipe w with
    | Some _, Some err => (Val (Some err), [])
    | _, _ =>
        (Val (match runCmd w cmd with
              | Some err =>
                  Some (if isExecErrNotFound err
                        then Errorf "linuxkit pkg requires docker to be installed"
                        else err)
              | None => match ctx dr with
                        | Some c => Copy c
                        | None => None
                        end
              end),
         [EvDebug ("Executing: " +:+ dctS +:+ fmtSlice (Args cmd)); EvRun cmd])
    end.
Proof.
  intros Hv He env dctS newArgs cmd.
  unfold command, bind, Environ, ask. cbn -[runAndWait proxyBuildArgs removelast].
  unfold extraBuildArgs. rewrite Hv, He.
  rewrite Bool.andb_false_r. cbn -[runAndWait proxyBuildArgs removelast].
  rewrite Bool.andb_true_r.
  subst cmd newArgs dctS env.
  destruct (ctx dr) as [c|]; [destruct (stdinPipe w) as [err|]|];
    cbn -[runAndWait proxyBuildArgs removelast];
    rewrite ?runAndWait_run; destruct (dct dr); reflexivity.
Qed.

(** ** The Pipeline Coordinator: [pushWithManifest] *)

(** C8 (as amended).  With [pushImage], [pushManifest] and [sign] all
    false the pipeline runs no subprocess and does not call the registry
    client.  It reads the credentials all the same: it returns success
    when they are found, and the error [failed to get auth] when not. *)
Theorem pushWithManifest_all_skipped
  (dr : dockerRunner) (img suffix : string) (w : World) :
  let run := pushWithManifest dr img suffix false false false w in
  runs (snd run) = []
  /\ registryCalls (snd run) = []
  /\ fst run =
       Val (match snd (getAuthConfig w registryServer) with
            | None => None
            | Some err => Some (Errorf ("failed to get auth: " +:+ Error err))
            end).
Proof.
  unfold pushWithManifest, getDockerAuth, bind, ret, ask, emit, Print.
  cbn -[signManifest].
  destruct (getAuthConfig w registryServer) as [auth [err|]];
    cbn -[signManifest]; [now repeat split|].
  destruct (dct dr); cbn; now repeat split.
Qed.

(** C3.  At the trust check of [pushWithManifest], that is once the image
    push (when asked for), the reading of the credentials and the
    manifest push (when asked for) have succeeded: with content trust off
    on the runner, or with content trust on and [sign] false, the pipeline
    returns success; and in these two cases no run of the pipeline, failed
    or not, starts the signer: the line [Signing manifest for] is never
    printed and the only subprocesses are the engine's.  With content
    trust on, [sign] true and [pushManifest] false, the run ends with the
    run of [signManifest] on the image, the empty digest and the length
    zero, and its result is the result of the pipeline. *)
Theorem pushWithManifest_trust_check
  (dr : dockerRunner) (img suffix : string)
  (pushImage pushManifest sign : bool) (w : World) :
  let run := pushWithManifest dr img suffix pushImage pushManifest sign w in
  let auth := fst (getAuthConfig w registryServer) in
  let pushed :=
    pushImage = false \/ fst (push dr (img +:+ suffix) w) = Val None in
  let authenticated := snd (getAuthConfig w registryServer) = None in
  let listed :=
    pushManifest = false
    \/ exists digest l, fst (manifestPush img auth w) = Val (digest, l, None) in
  (dct dr = false \/ sign = false ->
   (forall cmd, In cmd (runs (snd run)) -> Path cmd = "docker")
   /\ ~ In (EvPrint ("Signing manifest for " +:+ img +:+ LF)) (snd run)
   /\ (pushed -> authenticated -> listed -> fst run = Val None))
  /\ (dct dr = true -> sign = true -> pushManifest = false ->
      pushed -> authenticated ->
      exists before,
        run = (fst (signManifest img "" 0 auth w),
               before ++ snd (signManifest img "" 0 auth w))
        /\ registryCalls before = []).
Proof.
  intros run auth pushed authenticated listed.
  subst run auth pushed authenticated listed.
  unfold pushWithManifest, getDockerAuth, manifestPush, manifestPushOf.
  unfold bind, ret, ask, emit, Print.
  split.
  - intros Htrust.
    destruct pushImage, pushManifest; cbn -[signManifest push];
      rewrite ?push_command, ?runAndWait_run;
      repeat (match goal with
        | |- context [runCmd ?w0 ?c] => destruct (runCmd w0 c) as [?err|]
        | |- context [getAuthConfig ?w0 ?s] =>
            destruct (getAuthConfig w0 s) as [?auth [?err|]]
        | |- context [pushManifestList ?w0 ?c] =>
            destruct (pushManifestList w0 c) as [[?digest ?l] [?err|]]
        | |- context [isExecErrNotFound ?e] => destruct (isExecErrNotFound e)
        end; cbn -[signManifest]);
      (destruct Htrust as [Hd|Hs];
       [rewrite ?Hd | subst sign; destruct (dct dr)]); cbn -[signManifest];
      ((split; [|split]);
      [ intros cmd Hin; repeat (destruct Hin as [<-|Hin]; [reflexivity|]);
        contradiction
      | intros Hin;
        repeat (destruct Hin as [Heq|Hin]; [discriminate Heq|]); contradiction
      | intros Hp Ha Hl; try reflexivity; try discriminate Ha;
        try (destruct Hp as [Hp|Hp]; discriminate Hp);
        try (destruct Hl as [Hl|(d' & l' & Hl)]; discriminate Hl) ]).
  - intros Hd Hs Hm Hp Ha. subst sign pushManifest. rewrite Hd.
    destruct pushImage; cbn -[signManifest push] in *;
      rewrite ?push_command, ?runAndWait_run in *;
      cbn -[signManifest] in *.
    + destruct Hp as [Hp|Hp]; [discriminate Hp|].
      destruct (runCmd w _) as [err|]; [discriminate Hp|].
      cbn -[signManifest].
      destruct (getAuthConfig w registryServer) as [auth [aerr|]];
        [discriminate Ha|].
      cbn -[signManifest].
      destruct (signManifest img "" 0 auth w) as [r t].
      eexists [_; _; _; _; _; _]. split; reflexivity.
    + destruct (getAuthConfig w registryServer) as [auth [aerr|]];
        [discriminate Ha|].
      cbn -[signManifest].
      destruct (signManifest img "" 0 auth w) as [r t].
      eexists [_; _; _; _]. split; reflexivity.
Qed.

(** ** The theorems at sample inputs *)

(** C1, the claim as stated: the one registry call of [manifestPush] has
    the ignore-missing policy set, not cleared. *)
Lemma manifestPush_ignore_missing_set :
  map pcIgnoreMissing
    (registryCalls (snd (manifestPush "example/app" sampleAuth quietWorld)))
  = [true].
Proof. reflexivity. Qed.

(** C2, the claim as stated: the reference [repo:] has an empty tag
    portion, and [signManifest] on it and a sha256 digest returns no
    error and has run the signing tool, with the empty tag. *)
Lemma signManifest_empty_tag_runs_notary :
  afterFirst ":" "repo:" = ""
  /\ fst (signManifest "repo:" ("sha256:" +:+ sampleHex) 1234 sampleAuth
            quietWorld) = Val None
  /\ map Args
       (runs (snd (signManifest "repo:" ("sha256:" +:+ sampleHex) 1234
                     sampleAuth quietWorld)))
     = [["notary"; "-s"; "https://notary.docker.io";
         "-d"; "/root/.docker/trust"; "addhash"; "-p"; "docker.io/repo"; "";
         "1234"; "--sha256"; sampleHex; "-r"; "targets/releases"]].
Proof. repeat split. Qed.

Lemma signManifest_image_without_colon_witness :
  hasByte ":" "example/app" = false
  /\ signManifest "example/app" ("sha256:" +:+ sampleHex) 1234 sampleAuth
       quietWorld
     = (Val (Some (Errorf "image not composed of <repo>:<tag> 'example/app'")),
        []).
Proof.
  split; [reflexivity|].
  exact (signManifest_image_without_colon "example/app"
           ("sha256:" +:+ sampleHex) 1234 sampleAuth quietWorld eq_refl).
Defined.

(** C5, the claim as stated: for [example/app:latest] the string
    [example/app] is no argument of the signing tool; the argument is
    [docker.io/example/app]. *)
Lemma signManifest_repo_is_namespaced :
  isHex64 sampleHex = true
  /\ exists cmd,
      runs (snd (signManifest "example/app:latest" ("sha256:" +:+ sampleHex)
                   1234 sampleAuth quietWorld)) = [cmd]
      /\ ~ In "example/app" (Args cmd)
      /\ In "docker.io/example/app" (Args cmd).
Proof.
  split; [reflexivity|]. eexists. split; [reflexivity|]. split.
  - cbn. intros H.
    repeat (destruct H as [H|H]; [discriminate H|]). exact H.
  - cbn. tauto.
Qed.

Lemma signManifest_arguments_witness :
  hasByte ":" "example/app" = false /\ hasByte ":" "latest" = false
  /\ isHex64 sampleHex = true
  /\ exists cmd,
      runs (snd (signManifest "example/app:latest" ("sha256:" +:+ sampleHex)
                   1234 sampleAuth quietWorld)) = [cmd]
      /\ Path cmd = "notary"
      /\ Args cmd =
           ["notary"; "-s"; "https://notary.docker.io";
            "-d"; "/root/.docker/trust";
            "addhash"; "-p"; "docker.io/example/app"; "latest"; "1234";
            "--sha256"; sampleHex; "-r"; "targets/releases"].
Proof.
  repeat (split; [reflexivity|]).
  exact (signManifest_arguments "example/app" "latest" sampleHex 1234
           sampleAuth quietWorld eq_refl eq_refl eq_refl).
Defined.

Lemma signManifest_algorithm_not_sha256_witness :
  beforeFirst ":" "md5:d41d8cd98f00b204e9800998ecf8427e" <> "sha256"
  /\ exists msg,
      signManifest "example/app:latest" "md5:d41d8cd98f00b204e9800998ecf8427e"
        1234 sampleAuth quietWorld
      = (Val (Some (Errorf msg)), []).
Proof.
  assert (H : beforeFirst ":" "md5:d41d8cd98f00b204e9800998ecf8427e" <> "sha256")
    by (cbn; discriminate).
  split; [exact H|].
  exact (signManifest_algorithm_not_sha256 "example/app:latest"
           "md5:d41d8cd98f00b204e9800998ecf8427e" 1234 sampleAuth quietWorld H).
Defined.

Lemma manifestPush_entries_witness :
  (exists call,
      manifestPushOf ["linux/amd64"; "linux/arm/v7"] "example/app" sampleAuth
        quietWorld
      = (Val (pushManifestList quietWorld call), [EvPushManifestList call])
      /\ Manifests (pcInput call) =
           [{| Image := "example/app-amd64";
               EntryPlatform :=
                 {| OS := "linux"; Architecture := "amd64"; Variant := "" |} |};
            {| Image := "example/app-arm";
               EntryPlatform :=
                 {| OS := "linux"; Architecture := "arm"; Variant := "v7" |} |}])
  /\ manifestPushOf ["linux/amd64"; "windows"; "linux/arm64"] "example/app"
       sampleAuth quietWorld
     = (Val ("", 0%Z,
             Some (Errorf "platform argument 1 is not of form 'os/arch': 'windows'")),
        []).
Proof.
  destruct (manifestPush_entries "example/app" sampleAuth quietWorld)
    as (Hok & Hbad & _).
  split.
  - eexists. split.
    + apply (Hok [{| ptOS := "linux"; ptArch := "amd64"; ptVariant := None |};
                  {| ptOS := "linux"; ptArch := "arm"; ptVariant := Some "v7" |}]).
      repeat constructor.
    + reflexivity.
  - apply (Hbad [{| ptOS := "linux"; ptArch := "amd64"; ptVariant := None |}]
             "windows" ["linux/arm64"]).
    + repeat constructor.
    + discriminate.
    + discriminate.
Defined.

Lemma command_build_malformed_args_witness :
  lookupEnv badJSONWorld buildArgsEnv = Some "{not json"
  /\ command (newDockerRunner false true false) ["build"; "-t"; "tag"; "pkg"]
       badJSONWorld
     = (Val None,
        [EvDebug "Executing: [docker build --build-arg http_proxy=http://proxy:3128 -t tag pkg]";
         EvRun {| Path := "docker";
                  Args := ["docker"; "build"; "--build-arg";
                           "http_proxy=http://proxy:3128"; "-t"; "tag"; "pkg"];
                  Env := ["HOME=/root"; "http_proxy=http://proxy:3128";
                          "LK_BUILD_ARGS={not json"];
                  StdinPiped := false |}]).
Proof.
  split; [reflexivity|].
  exact (command_build_malformed_args (newDockerRunner false true false)
           ["-t"; "tag"; "pkg"] badJSONWorld "{not json" _ eq_refl eq_refl).
Defined.

(** C8, the claim as stated: with the three flags false and a credential
    store that answers with an error, the pipeline returns an error. *)
Lemma pushWithManifest_skipped_without_credentials :
  pushWithManifest (newDockerRunner false true false) "example/app" "-amd64"
    false false false noCredentialsWorld
  = (Val (Some (Errorf "failed to get auth: error getting credentials")),
     [EvPrint ("Image push disabled, skipping..." +:+ LF);
      EvGetAuth "https://index.docker.io/v1/"]).
Proof. reflexivity. Qed.

Lemma pushWithManifest_trust_check_witness :
  fst (pushWithManifest (newDockerRunner false true false) "example/app:latest"
         "-amd64" true true true quietWorld) = Val None
  /\ fst (pushWithManifest (newDockerRunner true true true) "example/app:latest"
            "-amd64" true false true quietWorld)
     = Val (Some (Errorf "digest not composed of <algo>:<hash> ''")).
Proof.
  split.
  - pose proof (pushWithManifest_trust_check (newDockerRunner false true false)
                  "example/app:latest" "-amd64" true true true quietWorld) as H.
    cbv zeta in H. destruct H as [H _].
    destruct (H (or_introl eq_refl)) as (_ & _ & Hok).
    apply Hok.
    + right. reflexivity.
    + reflexivity.
    + right. do 2 eexists. reflexivity.
  - pose proof (pushWithManifest_trust_check (newDockerRunner true true true)
                  "example/app:latest" "-amd64" true false true quietWorld) as H.
    cbv zeta in H. destruct H as [_ H].
    destruct (H eq_refl eq_refl eq_refl (or_intror eq_refl) eq_refl)
      as (before & E & _).
    rewrite E. reflexivity.
Defined.

(** ** More on the Command Executor *)

Lemma command_nonempty (dr : dockerRunner) (arg0 : string)
  (rest : list string) (w : World) :
  let trust := dct dr && (negb (isPush (arg0 :: rest)) || sign dr) in
  let env := engineEnv w trust in
  let dctS := if trust then dctEnableEnv +:+ " " else "" in
  command dr (arg0 :: rest) w =
    if arg0 =? "build" then
      let newArgs :=
        "docker" :: arg0 :: extraBuildArgs w (proxyBuildArgs w) ++ rest in
      match ctx dr with
      | Some c =>
          match stdinPipe w with
          | Some err => (Val (Some err), [])
          | None =>
              runAndWait {| Path := "docker";
                            Args := removelast newArgs ++ ["-"];
                            Env := env; StdinPiped := true |}
                dctS (Copy c) w
          end
      | None =>
          runAndWait {| Path := "docker"; Args := newArgs; Env := env;
                        StdinPiped := false |} dctS None w
      end
    else
      runAndWait {| Path := "docker"; Args := "docker" :: arg0 :: rest;
                    Env := env; StdinPiped := false |} dctS None w.
Proof.
  intros trust env dctS. subst env dctS trust.
  unfold command, bind, Environ, ask, engineEnv.
  change (Nat.leb 2 (List.length (arg0 :: rest))
          && (nth 0 (arg0 :: rest) "" =? "image")
          && (nth 1 (arg0 :: rest) "" =? "push"))
    with (isPush (arg0 :: rest)).
  cbn -[runAndWait proxyBuildArgs extraBuildArgs removelast isPush String.eqb].
  destruct (arg0 =? "build");
    [destruct (ctx dr) as [c|]; [destruct (stdinPipe w) as [err|]|]|];
    cbn -[runAndWait proxyBuildArgs extraBuildArgs removelast isPush];
    rewrite ?runAndWait_run;
    destruct (dct dr && (negb (isPush (arg0 :: rest)) || sign dr));
    reflexivity.
Qed.

Lemma isPush_spec (args : list string) :
  isPush args = true <-> exists more, args = "image" :: "push" :: more.
Proof.
  unfold isPush. split.
  - destruct args as [|a [|b more]]; cbn; try discriminate.
    destruct (String.eqb_spec a "image") as [->|]; [|discriminate].
    destruct (String.eqb_spec b "push") as [->|]; [|discriminate].
    intros _. now exists more.
  - intros (more & ->). reflexivity.
Qed.

Lemma command_runs (dr : dockerRunner) (arg0 : string)
  (rest : list string) (w : World) (cmd : Cmd) :
  In cmd (runs (snd (command dr (arg0 :: rest) w))) ->
  runs (snd (command dr (arg0 :: rest) w)) = [cmd]
  /\ Path cmd = "docker"
  /\ Env cmd =
       engineEnv w (dct dr && (negb (isPush (arg0 :: rest)) || sign dr))
  /\ fst (command dr (arg0 :: rest) w) =
       Val (match runCmd w cmd with
            | Some err => Some (reported err)
            | None => match ctx dr with
                      | Some c => if arg0 =? "build" then Copy c else None
                      | None => None
                      end
            end).
Proof.
  rewrite command_nonempty. cbv zeta.
  destruct (arg0 =? "build");
    [destruct (ctx dr) as [c|]; [destruct (stdinPipe w) as [err|]|]|];
    rewrite ?runAndWait_run; cbn -[removelast isPush];
    try contradiction;
    (intros [<-|[]]); repeat split; try reflexivity.
  all: destruct (ctx dr); reflexivity.
Qed.

Lemma isPush_false (args : list string) :
  (forall more, args <> "image" :: "push" :: more) -> isPush args = false.
Proof.
  intros H. destruct (isPush args) eqn:E; [|reflexivity].
  apply isPush_spec in E. destruct E as (more & E). now apply H in E.
Qed.

(** X1.  Content trust and the kind of command: the engine gets
    [DOCKER_CONTENT_TRUST=1] appended to the environment of the process
    for an [image push] exactly when the runner has both [dct] and [sign],
    and for any other command exactly when the runner has [dct]. *)
Theorem command_trust_env (dr : dockerRunner) (arg0 : string)
  (rest : list string) (w : World) (cmd : Cmd) :
  In cmd (runs (snd (command dr (arg0 :: rest) w))) ->
  ((exists more, arg0 :: rest = "image" :: "push" :: more) ->
   Env cmd = if dct dr && sign dr
             then environStrings w ++ [dctEnableEnv] else environStrings w)
  /\ ((forall more, arg0 :: rest <> "image" :: "push" :: more) ->
      Env cmd = if dct dr
                then environStrings w ++ [dctEnableEnv] else environStrings w).
Proof.
  intros Hin. destruct (command_runs dr arg0 rest w cmd Hin) as (_ & _ & E & _).
  rewrite E. unfold engineEnv. split; intros H.
  - apply isPush_spec in H. rewrite H. cbn [negb orb]. reflexivity.
  - rewrite (isPush_false _ H). cbn [negb orb].
    now rewrite Bool.andb_true_r.
Qed.

(** X3.  [command] with no argument at all panics on [args[0]] before
    anything is run.  With an argument it does not panic, starts at most
    one process, and that process is the engine: the name [docker], which
    is also the first element of its argument vector. *)
Theorem command_single_engine_run (dr : dockerRunner) (args : list string)
  (w : World) :
  match args with
  | [] =>
      command dr args w =
        (GoPanic "runtime error: index out of range [0] with length 0", [])
  | _ :: _ =>
      (exists r, fst (command dr args w) = Val r)
      /\ List.length (runs (snd (command dr args w))) <= 1
      /\ forall cmd,
          In cmd (runs (snd (command dr args w))) ->
          Path cmd = "docker" /\ nth 0 (Args cmd) "" = "docker"
  end.
Proof.
  destruct args as [|arg0 rest]; [reflexivity|].
  rewrite command_nonempty. cbv zeta.
  destruct (arg0 =? "build");
    [destruct (ctx dr) as [c|]; [destruct (stdinPipe w) as [err|]|]|];
    rewrite ?runAndWait_run; cbn [fst snd runs List.length In Path Args];
    (split; [eexists; reflexivity|]); (split; [lia|]);
    intros cmd Hin; try contradiction;
    destruct Hin as [<-|[]]; cbn [Path Args]; split; reflexivity.
Qed.

(** X4.  The missing binary, for a runner without build context.  An
    error returned by [command] is never the [exec.ErrNotFound] error;
    and whenever the run of the engine ends in that error, what [command]
    returns is the error [linuxkit pkg requires docker to be installed]. *)
Theorem command_never_returns_not_found (dr : dockerRunner)
  (args : list string) (w : World) :
  ctx dr = None ->
  (forall err,
      fst (command dr args w) = Val (Some err) ->
      isExecErrNotFound err = false)
  /\ (forall cmd err,
         In cmd (runs (snd (command dr args w))) ->
         runCmd w cmd = Some err ->
         isExecErrNotFound err = true ->
         fst (command dr args w) =
           Val (Some (Errorf "linuxkit pkg requires docker to be installed"))).
Proof.
  intros Hctx. destruct args as [|arg0 rest].
  - split; [discriminate|intros cmd err []].
  - rewrite command_nonempty. cbv zeta. rewrite Hctx.
    destruct (arg0 =? "build"); rewrite runAndWait_run;
      cbn [fst snd runs In]; (split; [intros err|intros cmd err [<-|[]]]).
    + destruct (runCmd w _) as [e|]; try discriminate.
      intros [= <-]. destruct (isExecErrNotFound e) eqn:E;
        [reflexivity|exact E].
    + intros -> ->. reflexivity.
    + destruct (runCmd w _) as [e|]; try discriminate.
      intros [= <-]. destruct (isExecErrNotFound e) eqn:E;
        [reflexivity|exact E].
    + intros -> ->. reflexivity.
Qed.

Lemma fold_left_pairs {A : Type} (f : A -> list string) (l : list A)
  (acc : list string) :
  fold_left (fun buildArgs x => buildArgs ++ f x) l acc = acc ++ flat_map f l.
Proof.
  revert acc. induction l as [|x l IH]; intros acc; simpl.
  - now rewrite app_nil_r.
  - now rewrite IH, app_assoc.
Qed.

Lemma proxyBuildArgs_flat_map (w : World) :
  proxyBuildArgs w = flat_map (proxyPair w) proxyEnvVars.
Proof.
  unfold proxyBuildArgs. generalize proxyEnvVars. intros names.
  enough (H : forall acc,
             fold_left
               (fun buildArgs proxyVarName =>
                  match lookupEnv w proxyVarName with
                  | Some value =>
                      buildArgs ++ ["--build-arg"; proxyVarName +:+ "=" +:+ value]
                  | None => buildArgs
                  end) names acc
             = acc ++ flat_map (proxyPair w) names) by exact (H []).
  induction names as [|name names IH]; intros acc.
  - simpl. now rewrite app_nil_r.
  - simpl. rewrite IH. unfold proxyPair at 2, buildArgPair.
    destruct (lookupEnv w name); [now rewrite <- app_assoc|reflexivity].
Qed.

(** X5.  When [LK_BUILD_ARGS] decodes, a build (without build context)
    is run as [docker build], then one [--build-arg name=value] for each
    proxy variable that is set, in the order of [proxyEnvVars], then one
    [--build-arg k=v] for each decoded pair in the order the map is
    ranged over, then the arguments the caller gave after [build]. *)
Theorem command_build_args_order (dr : dockerRunner) (rest : list string)
  (w : World) (value : string) (KVs : list (string * string)) :
  ctx dr = None ->
  lookupEnv w buildArgsEnv = Some value ->
  rangeKVs w value = inr KVs ->
  map Args (runs (snd (command dr ("build" :: rest) w))) =
    [["docker"; "build"]
     ++ flat_map (proxyPair w) proxyEnvVars
     ++ flat_map (fun kv => buildArgPair (fst kv) (snd kv)) KVs
     ++ rest].
Proof.
  intros Hctx Hv Hk. rewrite command_nonempty. cbv zeta.
  rewrite Hctx, runAndWait_run. cbn [String.eqb Ascii.eqb Bool.eqb snd runs map Args].
  unfold extraBuildArgs. rewrite Hv, Hk.
  rewrite (fold_left_pairs (fun kv => buildArgPair (fst kv) (snd kv))).
  rewrite proxyBuildArgs_flat_map, <- app_assoc. reflexivity.
Qed.

Lemma pull_runs (dr : dockerRunner) (img : string) (w : World) :
  runs (snd (pull dr img w)) = runs (snd (command dr ["image"; "pull"; img] w)).
Proof.
  unfold pull, bind.
  destruct (command dr ["image"; "pull"; img] w) as [[[[]|]|] t];
    cbn; now rewrite ?app_nil_r.
Qed.

Lemma tag_runs (dr : dockerRunner) (ref t : string) (w : World) :
  runs (snd (tag dr ref t w)) = runs (snd (command dr ["image"; "tag"; ref; t] w)).
Proof.
  unfold tag, bind, Print, emit.
  now destruct (command dr ["image"; "tag"; ref; t] w).
Qed.

Lemma command_env_not_push (dr : dockerRunner) (arg0 : string)
  (rest : list string) (w : World) (cmd : Cmd) :
  (forall more, arg0 :: rest <> "image" :: "push" :: more) ->
  In cmd (runs (snd (command dr (arg0 :: rest) w))) ->
  Env cmd = engineEnv w (dct dr).
Proof.
  intros H Hin. destruct (command_runs dr arg0 rest w cmd Hin) as (_ & _ & E & _).
  rewrite E, (isPush_false _ H). cbn [negb orb]. now rewrite Bool.andb_true_r.
Qed.

(** The environment the methods of the runner give the engine. *)
Lemma runner_engine_env (dr : dockerRunner) (w : World) (cmd : Cmd) :
  (forall img,
      In cmd (runs (snd (push dr img w))) ->
      Env cmd = if dct dr && sign dr
                then environStrings w ++ [dctEnableEnv] else environStrings w)
  /\ (forall img,
         In cmd (runs (snd (pull dr img w))) ->
         Env cmd = if dct dr
                   then environStrings w ++ [dctEnableEnv] else environStrings w)
  /\ (forall ref t,
         In cmd (runs (snd (tag dr ref t w))) ->
         Env cmd = if dct dr
                   then environStrings w ++ [dctEnableEnv] else environStrings w)
  /\ (forall tgt refs,
         In cmd (runs (snd (save dr tgt refs w))) ->
         Env cmd = if dct dr
                   then environStrings w ++ [dctEnableEnv] else environStrings w)
  /\ (forall t pkg opts,
         In cmd (runs (snd (build dr t pkg opts w))) ->
         Env cmd = if dct dr
                   then environStrings w ++ [dctEnableEnv] else environStrings w).
Proof.
  repeat split.
  - intros img Hin. unfold push in Hin.
    destruct (command_runs dr _ _ w cmd Hin) as (_ & _ & E & _).
    rewrite E. reflexivity.
  - intros img Hin. rewrite pull_runs in Hin.
    refine (command_env_not_push dr _ _ w cmd _ Hin); discriminate.
  - intros ref t Hin. rewrite tag_runs in Hin.
    refine (command_env_not_push dr _ _ w cmd _ Hin); discriminate.
  - intros tgt refs Hin. unfold save in Hin. cbn [app] in Hin.
    refine (command_env_not_push dr _ _ w cmd _ Hin); discriminate.
  - intros t pkg opts Hin. unfold build in Hin.
    destruct (cache dr); cbn [negb app] in Hin;
      refine (command_env_not_push dr _ _ w cmd _ Hin); discriminate.
Qed.

Lemma engineEnv_carries (w : World) (trust : bool) :
  ~ In dctEnableEnv (environStrings w) ->
  In dctEnableEnv
    (if trust then environStrings w ++ [dctEnableEnv] else environStrings w)
  <-> trust = true.
Proof.
  intros Hno. destruct trust.
  - split; [reflexivity|]. intros _. apply in_or_app. right. now left.
  - split; [intros H; now apply Hno in H|discriminate].
Qed.

(** X2.  Content trust and the methods of the runner.  When the
    environment of the process does not hold the entry
    [DOCKER_CONTENT_TRUST=1] already, the environment of the engine run by
    [pull], [tag], [save] or [build] holds it exactly when the runner has
    [dct], and the one of the engine run by [push] exactly when the runner
    has [dct] and [sign]: a push by a runner that does not sign does not
    carry it. *)
Theorem runner_trust_env (dr : dockerRunner) (w : World) (cmd : Cmd) :
  ~ In dctEnableEnv (environStrings w) ->
  (forall img,
      In cmd (runs (snd (push dr img w))) ->
      (In dctEnableEnv (Env cmd) <-> dct dr = true /\ sign dr = true))
  /\ (forall img,
         In cmd (runs (snd (pull dr img w))) ->
         (In dctEnableEnv (Env cmd) <-> dct dr = true))
  /\ (forall ref t,
         In cmd (runs (snd (tag dr ref t w))) ->
         (In dctEnableEnv (Env cmd) <-> dct dr = true))
  /\ (forall tgt refs,
         In cmd (runs (snd (save dr tgt refs w))) ->
         (In dctEnableEnv (Env cmd) <-> dct dr = true))
  /\ (forall t pkg opts,
         In cmd (runs (snd (build dr t pkg opts w))) ->
         (In dctEnableEnv (Env cmd) <-> dct dr = true)).
Proof.
  intros Hno.
  destruct (runner_engine_env dr w cmd) as (Hpush & Hpull & Htag & Hsave & Hbuild).
  split; [|split; [|split; [|split]]].
  - intros img Hin. rewrite (Hpush img Hin).
    etransitivity; [apply (engineEnv_carries w _ Hno)|apply andb_true_iff].
  - intros img Hin. rewrite (Hpull img Hin).
    apply (engineEnv_carries w _ Hno).
  - intros ref t Hin. rewrite (Htag ref t Hin).
    apply (engineEnv_carries w _ Hno).
  - intros tgt refs Hin. rewrite (Hsave tgt refs Hin).
    apply (engineEnv_carries w _ Hno).
  - intros t pkg opts Hin. rewrite (Hbuild t pkg opts Hin).
    apply (engineEnv_carries w _ Hno).
Qed.

Lemma replace_last (pre : list string) (a b : string) :
  removelast (pre ++ [a]) ++ [b] = pre ++ [b].
Proof. now rewrite removelast_last. Qed.

(** X6.  [build] with a build context: the engine is run with the pipe on
    its standard input and with [-] in the place of the package directory,
    the last argument; everything before it is as without context.  When
    the run fails its error is returned; when it exits zero the result is
    the result of the copy of the context, an error of that copy
    included.  When the pipe cannot be made, its error is returned and
    nothing is run. *)
Theorem build_with_context (dr : dockerRunner) (t pkg : string)
  (opts : list string) (w : World) (c : buildContext) :
  ctx dr = Some c ->
  let cmd :=
    {| Path := "docker";
       Args := ["docker"; "build"]
               ++ extraBuildArgs w (proxyBuildArgs w)
               ++ (if cache dr then [] else ["--no-cache"])
               ++ opts ++ ["-t"; t; "-"];
       Env := if dct dr
              then environStrings w ++ [dctEnableEnv] else environStrings w;
       StdinPiped := true |} in
  build dr t pkg opts w =
    match stdinPipe w with
    | Some err => (Val (Some err), [])
    | None =>
        (Val (match runCmd w cmd with
              | Some err =>
                  Some (if isExecErrNotFound err
                        then Errorf "linuxkit pkg requires docker to be installed"
                        else err)
              | None => Copy c
              end),
         [EvDebug ("Executing: "
                   +:+ (if dct dr then dctEnableEnv +:+ " " else "")
                   +:+ fmtSlice (Args cmd));
          EvRun cmd])
    end.
Proof.
  intros Hctx cmd. subst cmd. unfold build.
  assert (E : forall X : list string,
             removelast ("docker" :: "build"
                         :: extraBuildArgs w (proxyBuildArgs w)
                            ++ X ++ opts ++ ["-t"; t; pkg]) ++ ["-"]
             = ["docker"; "build"] ++ extraBuildArgs w (proxyBuildArgs w)
               ++ X ++ opts ++ ["-t"; t; "-"]).
  { intros X.
    replace ("docker" :: "build" :: extraBuildArgs w (proxyBuildArgs w)
             ++ X ++ opts ++ ["-t"; t; pkg])
      with (("docker" :: "build" :: extraBuildArgs w (proxyBuildArgs w)
             ++ X ++ opts ++ ["-t"; t]) ++ [pkg])
      by (cbn; now rewrite <- !app_assoc).
    rewrite replace_last. cbn. now rewrite <- !app_assoc. }
  destruct (cache dr); cbn [negb app];
    rewrite command_nonempty; cbv zeta; rewrite Hctx;
    cbn [String.eqb Ascii.eqb Bool.eqb];
    (destruct (stdinPipe w) as [err|]; [reflexivity|]);
    rewrite runAndWait_run;
    match goal with
    | |- context [isPush ?a] => rewrite (isPush_false a) by discriminate
    end;
    cbn [negb orb]; rewrite Bool.andb_true_r; unfold engineEnv.
  - pose proof (E []) as E0. cbn [app] in E0. rewrite E0. reflexivity.
  - pose proof (E ["--no-cache"]) as E0. cbn [app] in E0. rewrite E0.
    reflexivity.
Qed.

Lemma flat_map_empty {A B : Type} (f : A -> list B) (l : list A) :
  (forall x, In x l -> f x = []) -> flat_map f l = [].
Proof.
  induction l as [|x l IH]; intros H; simpl; [reflexivity|].
  rewrite (H x (or_introl eq_refl)), IH; [reflexivity|].
  intros y Hy. apply H. now right.
Qed.

(** X7.  When none of the ten proxy variables and no [LK_BUILD_ARGS] is
    in the environment, [build] (without build context) injects nothing:
    the engine is run as [docker build], [--no-cache] unless the runner
    caches, the options as given, [-t], the tag and the package
    directory. *)
Theorem build_without_environment (dr : dockerRunner) (t pkg : string)
  (opts : list string) (w : World) :
  (forall name, In name (buildArgsEnv :: proxyEnvVars) -> lookupEnv w name = None) ->
  ctx dr = None ->
  map Args (runs (snd (build dr t pkg opts w))) =
    [["docker"; "build"]
     ++ (if cache dr then [] else ["--no-cache"])
     ++ opts ++ ["-t"; t; pkg]].
Proof.
  intros Hnone Hctx.
  assert (B : extraBuildArgs w (proxyBuildArgs w) = []).
  { unfold extraBuildArgs. rewrite (Hnone buildArgsEnv (or_introl eq_refl)).
    rewrite proxyBuildArgs_flat_map. apply flat_map_empty.
    intros name Hin. unfold proxyPair. rewrite (Hnone name); [reflexivity|].
    now right. }
  unfold build.
  destruct (cache dr); cbn [negb app];
    rewrite command_nonempty; cbv zeta; rewrite Hctx, B;
    cbn [String.eqb Ascii.eqb Bool.eqb]; rewrite runAndWait_run; reflexivity.
Qed.

(** ** More on the Pipeline Coordinator *)

Ltac pipeline_start pushImage Hp dr img suffix w :=
  unfold pushWithManifest, bind, Print, emit, ret;
  destruct pushImage; cbn -[push manifestPush signManifest getDockerAuth];
  [ destruct Hp as [Hp|Hp]; [discriminate Hp|];
    destruct (push dr (img +:+ suffix) w) as [r1 t1]; cbn in Hp; subst r1;
    cbn -[manifestPush signManifest getDockerAuth]
  | clear Hp ].

(** X8.  When the image push fails, the pipeline stops there: it returns
    the error of the push as it is, and after the line [Pushing ...] and
    the events of the push nothing happens: the credentials are not read,
    the registry is not called, nothing is signed, whatever the other two
    flags are. *)
Theorem pushWithManifest_push_failure (dr : dockerRunner) (img suffix : string)
  (pushManifest sign : bool) (w : World) (err : error) :
  fst (push dr (img +:+ suffix) w) = Val (Some err) ->
  pushWithManifest dr img suffix true pushManifest sign w =
    (Val (Some err),
     EvPrint ("Pushing " +:+ img +:+ suffix +:+ LF)
       :: snd (push dr (img +:+ suffix) w)).
Proof.
  intros H. unfold pushWithManifest, bind, Print, emit, ret.
  cbn -[push manifestPush signManifest getDockerAuth].
  destruct (push dr (img +:+ suffix) w) as [r t]. cbn in H. subst r.
  cbn. now rewrite app_nil_r.
Qed.

(** X9.  When the credentials cannot be read (and the image push, if
    asked for, went well), the pipeline returns [failed to get auth: ]
    followed by the text of the error, and the reading of the credentials
    is its last event: the registry is not called and nothing is signed,
    whatever the flags are. *)
Theorem pushWithManifest_auth_failure (dr : dockerRunner) (img suffix : string)
  (pushImage pushManifest sign : bool) (w : World) (err : error) :
  pushImage = false \/ fst (push dr (img +:+ suffix) w) = Val None ->
  snd (getAuthConfig w registryServer) = Some err ->
  pushWithManifest dr img suffix pushImage pushManifest sign w =
    (Val (Some (Errorf ("failed to get auth: " +:+ Error err))),
     (if pushImage
      then EvPrint ("Pushing " +:+ img +:+ suffix +:+ LF)
             :: snd (push dr (img +:+ suffix) w)
      else [EvPrint ("Image push disabled, skipping..." +:+ LF)])
     ++ [EvGetAuth registryServer]).
Proof.
  intros Hp Ha. pipeline_start pushImage Hp dr img suffix w.
  all: unfold getDockerAuth, bind, emit, ask, ret;
    cbn -[manifestPush signManifest];
    destruct (getAuthConfig w registryServer) as [auth [e|]];
    cbn in Ha; [injection Ha as ->|discriminate Ha];
    cbn; rewrite ?app_nil_r; reflexivity.
Qed.

(** X10.  When the manifest push fails (after a good image stage and with
    credentials), the pipeline returns the error of [manifestPush] as it
    is, and the events of [manifestPush] are its last: nothing is signed,
    also for a runner with content trust and with [sign] set. *)
Theorem pushWithManifest_manifest_failure (dr : dockerRunner)
  (img suffix : string) (pushImage sign : bool) (w : World)
  (digest : string) (l : Z) (err : error) :
  pushImage = false \/ fst (push dr (img +:+ suffix) w) = Val None ->
  snd (getAuthConfig w registryServer) = None ->
  fst (manifestPush img (fst (getAuthConfig w registryServer)) w)
    = Val (digest, l, Some err) ->
  pushWithManifest dr img suffix pushImage true sign w =
    (Val (Some err),
     (if pushImage
      then EvPrint ("Pushing " +:+ img +:+ suffix +:+ LF)
             :: snd (push dr (img +:+ suffix) w)
      else [EvPrint ("Image push disabled, skipping..." +:+ LF)])
     ++ [EvGetAuth registryServer;
         EvPrint ("Pushing " +:+ img +:+ suffix +:+ " to manifest "
                  +:+ img +:+ LF)]
     ++ snd (manifestPush img (fst (getAuthConfig w registryServer)) w)).
Proof.
  intros Hp Ha Hm. pipeline_start pushImage Hp dr img suffix w.
  all: unfold getDockerAuth, bind, emit, ask, ret;
    cbn -[manifestPush signManifest];
    destruct (getAuthConfig w registryServer) as [auth [e|]];
    cbn in Ha; [discriminate Ha|]; cbn -[manifestPush signManifest] in *;
    destruct (manifestPush img auth w) as [r2 t2]; cbn in Hm; subst r2;
    cbn; rewrite ?app_nil_r, <- ?app_assoc; reflexivity.
Qed.

(** X11.  With content trust on the runner and [pushManifest] and [sign]
    set, once the image stage, the credentials and the manifest push went
    well the pipeline ends with [signManifest] on the image name without
    the suffix, on the digest and the length that [manifestPush] returned
    and on the credentials read before; the result of [signManifest] is the
    result of the pipeline.  The image push, if any, is of the name with
    the suffix. *)
Theorem pushWithManifest_signs_pushed_digest (dr : dockerRunner)
  (img suffix : string) (pushImage : bool) (w : World)
  (digest : string) (l : Z) :
  dct dr = true ->
  pushImage = false \/ fst (push dr (img +:+ suffix) w) = Val None ->
  snd (getAuthConfig w registryServer) = None ->
  fst (manifestPush img (fst (getAuthConfig w registryServer)) w)
    = Val (digest, l, None) ->
  let auth := fst (getAuthConfig w registryServer) in
  pushWithManifest dr img suffix pushImage true true w =
    (fst (signManifest img digest l auth w),
     (if pushImage
      then EvPrint ("Pushing " +:+ img +:+ suffix +:+ LF)
             :: snd (push dr (img +:+ suffix) w)
      else [EvPrint ("Image push disabled, skipping..." +:+ LF)])
     ++ [EvGetAuth registryServer;
         EvPrint ("Pushing " +:+ img +:+ suffix +:+ " to manifest "
                  +:+ img +:+ LF)]
     ++ snd (manifestPush img auth w)
     ++ [EvPrint ("Signing manifest for " +:+ img +:+ LF)]
     ++ snd (signManifest img digest l auth w)).
Proof.
  intros Hd Hp Ha Hm auth. subst auth.
  pipeline_start pushImage Hp dr img suffix w.
  all: unfold getDockerAuth, bind, emit, ask, ret;
    cbn -[manifestPush signManifest];
    destruct (getAuthConfig w registryServer) as [auth [e|]];
    cbn in Ha; [discriminate Ha|]; cbn -[manifestPush signManifest] in *;
    destruct (manifestPush img auth w) as [r2 t2]; cbn in Hm; subst r2;
    rewrite Hd; cbn -[signManifest];
    destruct (signManifest img digest l auth w) as [r3 t3];
    cbn; rewrite ?app_nil_r, <- ?app_assoc; cbn; rewrite <- ?app_assoc;
    reflexivity.
Qed.

Lemma signManifest_empty_digest (img : string) (l : Z) (auth : AuthConfig)
  (w : World) :
  exists msg, signManifest img "" l auth w = (Val (Some (Errorf msg)), []).
Proof.
  unfold signManifest.
  destruct (Nat.ltb (List.length (Split img ":")) 2); now eexists.
Qed.

(** X12.  Signing without a manifest push never reaches the signing tool:
    with content trust on the runner, [sign] set and [pushManifest] not
    set, the pipeline (image stage and credentials good) always returns a
    validation error of [signManifest], and [Signing manifest for ...] is
    its last event; no [notary] process is run. *)
Theorem pushWithManifest_sign_needs_manifest (dr : dockerRunner)
  (img suffix : string) (pushImage : bool) (w : World) :
  dct dr = true ->
  pushImage = false \/ fst (push dr (img +:+ suffix) w) = Val None ->
  snd (getAuthConfig w registryServer) = None ->
  exists msg,
    pushWithManifest dr img suffix pushImage false true w =
      (Val (Some (Errorf msg)),
       (if pushImage
        then EvPrint ("Pushing " +:+ img +:+ suffix +:+ LF)
               :: snd (push dr (img +:+ suffix) w)
        else [EvPrint ("Image push disabled, skipping..." +:+ LF)])
       ++ [EvGetAuth registryServer;
           EvPrint ("Manifest push disabled, skipping..." +:+ LF);
           EvPrint ("Signing manifest for " +:+ img +:+ LF)]).
Proof.
  intros Hd Hp Ha.
  destruct (signManifest_empty_digest img 0
              (fst (getAuthConfig w registryServer)) w) as (msg & E).
  exists msg. revert E.
  pipeline_start pushImage Hp dr img suffix w.
  all: unfold getDockerAuth, bind, emit, ask, ret;
    cbn -[manifestPush signManifest];
    destruct (getAuthConfig w registryServer) as [auth [e|]];
    cbn in Ha; [discriminate Ha|]; cbn -[manifestPush signManifest] in *;
    rewrite Hd; cbn -[signManifest]; intros ->;
    cbn; rewrite ?app_nil_r, <- ?app_assoc; reflexivity.
Qed.

(** ** More on the Trust Signer *)

Lemma Split_second (sep : ascii) (s : string) :
  nth 1 (Split s sep) "" = beforeFirst sep (afterFirst sep s).
Proof.
  induction s as [|a s IH]; simpl; [reflexivity|].
  destruct (Ascii.eqb a sep).
  - apply (Split_head sep s).
  - destruct (Split_cons sep s) as (p & ps & E). rewrite E in *. exact IH.
Qed.

Lemma Split_count (sep : ascii) (s : string) :
  Nat.ltb (List.length (Split s sep)) 2 = negb (hasByte sep s).
Proof.
  destruct (hasByte sep s) eqn:E; cbn [negb].
  - apply Nat.ltb_ge. now apply Split_with.
  - now apply Split_short_iff.
Qed.

Lemma beforeFirst_app (sep : ascii) (a b : string) :
  hasByte sep a = false -> beforeFirst sep (a +:+ String sep b) = a.
Proof.
  induction a as [|c a IH]; simpl.
  - now rewrite Ascii.eqb_refl.
  - destruct (Ascii.eqb c sep); [discriminate|].
    intros H. now rewrite (IH H).
Qed.

Lemma afterFirst_app (sep : ascii) (a b : string) :
  hasByte sep a = false -> afterFirst sep (a +:+ String sep b) = b.
Proof.
  induction a as [|c a IH]; simpl.
  - now rewrite Ascii.eqb_refl.
  - destruct (Ascii.eqb c sep); [discriminate|]. exact IH.
Qed.

Lemma hasByte_app (sep : ascii) (a b : string) :
  hasByte sep (a +:+ String sep b) = true.
Proof.
  induction a as [|c a IH]; simpl.
  - now rewrite Ascii.eqb_refl.
  - now destruct (Ascii.eqb c sep).
Qed.

(** [signManifest] by cases: the three checks, then the run. *)
Lemma signManifest_cases (img digest : string) (l : Z) (auth : AuthConfig)
  (w : World) :
  signManifest img digest l auth w =
    if negb (hasByte ":" img) then
      (Val (Some (Errorf ("image not composed of <repo>:<tag> '" +:+ img +:+ "'"))),
       [])
    else if negb (hasByte ":" digest) then
      (Val (Some (Errorf ("digest not composed of <algo>:<hash> '" +:+ digest +:+ "'"))),
       [])
    else if negb (beforeFirst ":" digest =? "sha256") then
      (Val (Some (Errorf ("notary works with sha256 hash, not the provided "
                          +:+ beforeFirst ":" digest))),
       [])
    else
      let repo := beforeFirst ":" img in
      let tag := beforeFirst ":" (afterFirst ":" img) in
      let cmd :=
        notaryCmd w auth repo tag l (beforeFirst ":" (afterFirst ":" digest)) in
      match runCmd w cmd with
      | Some err =>
          (Val (Some (Errorf ("failed to execute notary-tool: " +:+ Error err))),
           [EvDebug ("Executing: " +:+ fmtSlice (Args cmd)); EvRun cmd])
      | None =>
          (Val None,
           [EvDebug ("Executing: " +:+ fmtSlice (Args cmd)); EvRun cmd;
            EvPrint ("Signed manifest index: " +:+ repo +:+ ":" +:+ tag +:+ LF)])
      end.
Proof.
  unfold signManifest.
  rewrite !Split_count, !Split_head, !Split_second.
  destruct (negb (hasByte ":" img)); [reflexivity|].
  destruct (negb (hasByte ":" digest)); [reflexivity|].
  destruct (negb (beforeFirst ":" digest =? "sha256")); [reflexivity|].
  unfold bind, Getenv, Environ, Debugf, Print, emit, Run, ret, notaryCmd.
  cbv zeta. destruct (runCmd w _); reflexivity.
Qed.

(** X13.  [signManifest] runs the signing tool exactly when the image
    reference holds a [:], the digest holds a [:] and the part of the
    digest before its first [:] is [sha256]; it then runs it once, and
    nothing else. *)
Theorem signManifest_runs_notary_iff (img digest : string) (l : Z)
  (auth : AuthConfig) (w : World) :
  (hasByte ":" img = true /\ hasByte ":" digest = true
   /\ beforeFirst ":" digest = "sha256")
  <-> exists cmd,
      runs (snd (signManifest img digest l auth w)) = [cmd]
      /\ Path cmd = "notary".
Proof.
  rewrite signManifest_cases. cbv zeta.
  destruct (hasByte ":" img); cbn [negb];
    [|split; [intros (H & _); discriminate H|intros (c & H & _); discriminate H]].
  destruct (hasByte ":" digest); cbn [negb];
    [|split; [intros (_ & H & _); discriminate H
             |intros (c & H & _); discriminate H]].
  destruct (String.eqb_spec (beforeFirst ":" digest) "sha256") as [E|E];
    cbn [negb].
  - split; [intros _|intros _; now repeat split].
    eexists. destruct (runCmd w _); split; reflexivity.
  - split; [intros (_ & _ & H); contradiction
           |intros (c & H & _); discriminate H].
Qed.

Lemma beforeFirst_without (sep : ascii) (s : string) :
  hasByte sep s = false -> beforeFirst sep s = s.
Proof.
  induction s as [|a s IH]; simpl; [reflexivity|].
  destruct (Ascii.eqb a sep); [discriminate|]. intros H. now rewrite IH.
Qed.

(** X14.  Only the first two parts count, in the image reference and in
    the digest alike.  For an image reference [repo:tag:more] (a registry
    with a port, say) and any digest that passes the checks, the
    repository signed is [repo], the part before the first [:], and the
    tag is [tag], the part between the first [:] and the second.  For a
    digest [sha256:hash:more] and any image reference that passes the
    check, the hash given to the tool is [hash].  What follows the second
    [:] is dropped.  The other input is read the same way: the part before
    its first [:], then the part from there to the next [:] or to the
    end. *)
Theorem signManifest_extra_colons (l : Z) (auth : AuthConfig) (w : World) :
  (forall repo tag more digest : string,
      hasByte ":" repo = false -> hasByte ":" tag = false ->
      hasByte ":" digest = true -> beforeFirst ":" digest = "sha256" ->
      map Args
        (runs (snd (signManifest (repo +:+ ":" +:+ tag +:+ ":" +:+ more)
                      digest l auth w)))
      = ["notary" :: notaryArgs (getenv w "HOME") repo tag l
                       (beforeFirst ":" (afterFirst ":" digest))])
  /\ (forall img hash more : string,
         hasByte ":" img = true -> hasByte ":" hash = false ->
         map Args
           (runs (snd (signManifest img ("sha256:" +:+ hash +:+ ":" +:+ more)
                         l auth w)))
         = ["notary" :: notaryArgs (getenv w "HOME") (beforeFirst ":" img)
                          (beforeFirst ":" (afterFirst ":" img)) l hash]).
Proof.
  split.
  - intros repo tag more digest Hr Ht Hd Ha.
    rewrite signManifest_cases. cbv zeta.
    change (repo +:+ ":" +:+ tag +:+ ":" +:+ more)
      with (repo +:+ String ":" (tag +:+ String ":" more)).
    rewrite hasByte_app, Hd, Ha.
    rewrite (beforeFirst_app ":" repo _ Hr), (afterFirst_app ":" repo _ Hr).
    rewrite (beforeFirst_app ":" tag _ Ht).
    cbn [negb String.eqb Ascii.eqb Bool.eqb].
    destruct (runCmd w _); reflexivity.
  - intros img hash more Hi Hh.
    rewrite signManifest_cases. cbv zeta.
    change ("sha256:" +:+ hash +:+ ":" +:+ more)
      with ("sha256" +:+ String ":" (hash +:+ String ":" more)).
    rewrite hasByte_app, Hi.
    cbn [beforeFirst afterFirst String.append negb String.eqb Ascii.eqb
           Bool.eqb].
    rewrite (beforeFirst_app ":" hash _ Hh).
    destruct (runCmd w _); reflexivity.
Qed.

(** X15.  The run of [signManifest] on [repo:tag] and [sha256:hash]: one
    debug line, then the signing tool, in the environment of the process
    with two more entries, the delegation passphrase taken from
    [DOCKER_CONTENT_TRUST_REPOSITORY_PASSPHRASE] and [NOTARY_AUTH] as the
    base64 of [username:password].  Any error of that run, a missing
    binary included, comes back as [failed to execute notary-tool: ]
    followed by its text; only after a run without error is
    [Signed manifest index: repo:tag] printed and nil returned. *)
Theorem signManifest_outcome (repo tag hash : string) (l : Z)
  (auth : AuthConfig) (w : World) :
  hasByte ":" repo = false -> hasByte ":" tag = false ->
  hasByte ":" hash = false ->
  let cmd :=
    {| Path := "notary";
       Args := "notary" :: notaryArgs (getenv w "HOME") repo tag l hash;
       Env := environStrings w ++
              [notaryDelegationPassphraseEnvVar +:+ "=" +:+ getenv w dctEnvVar;
               notaryAuthEnvVar +:+ "="
                 +:+ EncodeToString (Username auth +:+ ":" +:+ Password auth)];
       StdinPiped := false |} in
  signManifest (repo +:+ ":" +:+ tag) ("sha256:" +:+ hash) l auth w =
    match runCmd w cmd with
    | Some err =>
        (Val (Some (Errorf ("failed to execute notary-tool: " +:+ Error err))),
         [EvDebug ("Executing: " +:+ fmtSlice (Args cmd)); EvRun cmd])
    | None =>
        (Val None,
         [EvDebug ("Executing: " +:+ fmtSlice (Args cmd)); EvRun cmd;
          EvPrint ("Signed manifest index: " +:+ repo +:+ ":" +:+ tag +:+ LF)])
    end.
Proof.
  intros Hr Ht Hh cmd. subst cmd. rewrite signManifest_cases. cbv zeta.
  change (repo +:+ ":" +:+ tag) with (repo +:+ String ":" tag).
  change ("sha256:" +:+ hash) with ("sha256" +:+ String ":" hash).
  rewrite !hasByte_app.
  rewrite (beforeFirst_app ":" repo _ Hr), (afterFirst_app ":" repo _ Hr).
  assert (B : forall s, hasByte ":" s = false -> beforeFirst ":" s = s).
  { induction s as [|a s IH]; simpl; [reflexivity|].
    destruct (Ascii.eqb a ":"); [discriminate|]. intros H. now rewrite IH. }
  rewrite (B tag Ht).
  cbn [beforeFirst afterFirst String.append negb String.eqb Ascii.eqb Bool.eqb].
  rewrite (B hash Hh). reflexivity.
Qed.

(** X16.  Unset variables are read as empty, each on its own.  Without
    [HOME] the trust directory given to the signing tool after [-d] is the
    relative path [.docker/trust].  Without
    [DOCKER_CONTENT_TRUST_REPOSITORY_PASSPHRASE] the tool still gets the
    entry [NOTARY_DELEGATION_PASSPHRASE=], with nothing after the [=]:
    its environment is the one of the process, then that entry, then
    [NOTARY_AUTH]. *)
Theorem signManifest_unset_environment (img digest : string) (l : Z)
  (auth : AuthConfig) (w : World) (cmd : Cmd) :
  In cmd (runs (snd (signManifest img digest l auth w))) ->
  (lookupEnv w "HOME" = None ->
   nth 3 (Args cmd) "" = "-d" /\ nth 4 (Args cmd) "" = ".docker/trust")
  /\ (lookupEnv w dctEnvVar = None ->
      Env cmd =
        environStrings w ++
        ["NOTARY_DELEGATION_PASSPHRASE=";
         "NOTARY_AUTH="
           +:+ EncodeToString (Username auth +:+ ":" +:+ Password auth)]).
Proof.
  rewrite signManifest_cases. cbv zeta.
  repeat match goal with
         | |- context [if ?b then _ else _] => destruct b
         end; try contradiction.
  unfold notaryCmd, notaryArgs, getenv.
  destruct (runCmd w _); (intros [<-|[]]); cbn [Args Env nth];
    (split; [intros ->; split; reflexivity|intros ->; reflexivity]).
Qed.

(** ** The further theorems at sample inputs *)

Lemma command_trust_env_witness :
  In {| Path := "docker";
        Args := ["docker"; "image"; "push"; "example/app"];
        Env := ["HOME=/root"]; StdinPiped := false |}
    (runs (snd (command (newDockerRunner true true false)
                  ["image"; "push"; "example/app"] quietWorld)))
  /\ Env {| Path := "docker";
            Args := ["docker"; "image"; "push"; "example/app"];
            Env := ["HOME=/root"]; StdinPiped := false |}
     = environStrings quietWorld.
Proof.
  assert (Hin : In {| Path := "docker";
                      Args := ["docker"; "image"; "push"; "example/app"];
                      Env := ["HOME=/root"]; StdinPiped := false |}
                  (runs (snd (command (newDockerRunner true true false)
                                ["image"; "push"; "example/app"] quietWorld))))
    by (left; reflexivity).
  split; [exact Hin|].
  exact (proj1 (command_trust_env (newDockerRunner true true false) "image"
                  ["push"; "example/app"] quietWorld _ Hin)
           (ex_intro _ ["example/app"] eq_refl)).
Defined.

Lemma command_never_returns_not_found_witness :
  ctx (newDockerRunner false true false) = None
  /\ fst (command (newDockerRunner false true false)
            ["image"; "pull"; "alpine"] noEngineWorld)
     = Val (Some (Errorf "linuxkit pkg requires docker to be installed"))
  /\ isExecErrNotFound (Errorf "linuxkit pkg requires docker to be installed")
     = false.
Proof.
  destruct (command_never_returns_not_found (newDockerRunner false true false)
              ["image"; "pull"; "alpine"] noEngineWorld eq_refl)
    as [Hnever Hreplaced].
  assert (E : fst (command (newDockerRunner false true false)
                     ["image"; "pull"; "alpine"] noEngineWorld)
              = Val (Some (Errorf "linuxkit pkg requires docker to be installed"))).
  { eapply Hreplaced; [left; reflexivity|reflexivity|reflexivity]. }
  split; [reflexivity|]. split; [exact E|exact (Hnever _ E)].
Defined.

Lemma runner_trust_env_witness :
  ~ In dctEnableEnv (environStrings quietWorld)
  /\ ~ In dctEnableEnv
        (Env {| Path := "docker";
                Args := ["docker"; "image"; "push"; "example/app"];
                Env := ["HOME=/root"]; StdinPiped := false |})
  /\ In dctEnableEnv
       (Env {| Path := "docker";
               Args := ["docker"; "image"; "pull"; "example/app"];
               Env := ["HOME=/root"; "DOCKER_CONTENT_TRUST=1"];
               StdinPiped := false |}).
Proof.
  assert (Hno : ~ In dctEnableEnv (environStrings quietWorld))
    by (intros [H|[]]; discriminate H).
  split; [exact Hno|]. split.
  - destruct (runner_trust_env (newDockerRunner true true false) quietWorld
                {| Path := "docker";
                   Args := ["docker"; "image"; "push"; "example/app"];
                   Env := ["HOME=/root"]; StdinPiped := false |} Hno)
      as (Hpush & _).
    intros Hin.
    destruct (proj1 (Hpush "example/app" (or_introl eq_refl)) Hin) as [_ Hs].
    discriminate Hs.
  - destruct (runner_trust_env (newDockerRunner true true false) quietWorld
                {| Path := "docker";
                   Args := ["docker"; "image"; "pull"; "example/app"];
                   Env := ["HOME=/root"; "DOCKER_CONTENT_TRUST=1"];
                   StdinPiped := false |} Hno)
      as (_ & Hpull & _).
    exact (proj2 (Hpull "example/app" (or_introl eq_refl)) eq_refl).
Defined.

Lemma command_build_args_order_witness :
  rangeKVs buildArgsWorld (getenv buildArgsWorld buildArgsEnv)
  = inr [("KERNEL", "5.10"); ("ARCH", "arm64")]
  /\ map Args
       (runs (snd (command (newDockerRunner false true false)
                     ["build"; "-t"; "tag"; "pkg"] buildArgsWorld)))
     = [["docker"; "build";
         "--build-arg"; "no_proxy=";
         "--build-arg"; "HTTPS_PROXY=http://proxy:3128";
         "--build-arg"; "KERNEL=5.10"; "--build-arg"; "ARCH=arm64";
         "-t"; "tag"; "pkg"]].
Proof.
  split; [reflexivity|].
  exact (command_build_args_order (newDockerRunner false true false)
           ["-t"; "tag"; "pkg"] buildArgsWorld _ _ eq_refl eq_refl eq_refl).
Defined.

Lemma build_with_context_witness :
  ctx contextRunner = Some {| Copy := None |}
  /\ build contextRunner "tag" "pkgdir" ["--pull"] quietWorld
     = (Val None,
        [EvDebug "Executing: DOCKER_CONTENT_TRUST=1 [docker build --no-cache --pull -t tag -]";
         EvRun {| Path := "docker";
                  Args := ["docker"; "build"; "--no-cache"; "--pull";
                           "-t"; "tag"; "-"];
                  Env := ["HOME=/root"; "DOCKER_CONTENT_TRUST=1"];
                  StdinPiped := true |}]).
Proof.
  split; [reflexivity|].
  exact (build_with_context contextRunner "tag" "pkgdir" ["--pull"] quietWorld
           _ eq_refl).
Defined.

Lemma build_without_environment_witness :
  lookupEnv bareWorld buildArgsEnv = None
  /\ map Args
       (runs (snd (build (newDockerRunner false false false) "tag" "pkg" []
                     bareWorld)))
     = [["docker"; "build"; "--no-cache"; "-t"; "tag"; "pkg"]].
Proof.
  split; [reflexivity|].
  exact (build_without_environment (newDockerRunner false false false)
           "tag" "pkg" [] bareWorld (fun _ _ => eq_refl) eq_refl).
Defined.

Lemma pushWithManifest_push_failure_witness :
  fst (push (newDockerRunner false true false) "example/app-amd64"
         failingEngineWorld)
  = Val (Some (ExitError "exit status 1"))
  /\ fst (pushWithManifest (newDockerRunner false true false) "example/app"
            "-amd64" true true true failingEngineWorld)
     = Val (Some (ExitError "exit status 1"))
  /\ registryCalls
       (snd (pushWithManifest (newDockerRunner false true false) "example/app"
               "-amd64" true true true failingEngineWorld))
     = [].
Proof.
  split; [reflexivity|].
  rewrite (pushWithManifest_push_failure (newDockerRunner false true false)
             "example/app" "-amd64" true true failingEngineWorld
             (ExitError "exit status 1") eq_refl).
  split; reflexivity.
Defined.

Lemma pushWithManifest_auth_failure_witness :
  snd (getAuthConfig noCredentialsWorld registryServer)
  = Some (OtherError "error getting credentials")
  /\ pushWithManifest (newDockerRunner true true true) "example/app:latest"
       "-amd64" false true true noCredentialsWorld
     = (Val (Some (Errorf "failed to get auth: error getting credentials")),
        [EvPrint ("Image push disabled, skipping..." +:+ LF);
         EvGetAuth "https://index.docker.io/v1/"]).
Proof.
  split; [reflexivity|].
  exact (pushWithManifest_auth_failure (newDockerRunner true true true)
           "example/app:latest" "-amd64" false true true noCredentialsWorld
           _ (or_introl eq_refl) eq_refl).
Defined.

Lemma pushWithManifest_manifest_failure_witness :
  fst (manifestPush "example/app:latest" sampleAuth registryDownWorld)
  = Val ("", 0%Z, Some (OtherError "unauthorized: access denied"))
  /\ fst (pushWithManifest (newDockerRunner true true true) "example/app:latest"
            "-amd64" false true true registryDownWorld)
     = Val (Some (OtherError "unauthorized: access denied"))
  /\ runs (snd (pushWithManifest (newDockerRunner true true true)
                  "example/app:latest" "-amd64" false true true
                  registryDownWorld))
     = [].
Proof.
  split; [reflexivity|].
  rewrite (pushWithManifest_manifest_failure (newDockerRunner true true true)
             "example/app:latest" "-amd64" false true registryDownWorld
             "" 0%Z _ (or_introl eq_refl) eq_refl eq_refl).
  split; reflexivity.
Defined.

Lemma pushWithManifest_signs_pushed_digest_witness :
  fst (manifestPush "example/app:latest" sampleAuth quietWorld)
  = Val ("sha256:" +:+ sampleHex, 1234%Z, None)
  /\ map Args
       (runs (snd (pushWithManifest (newDockerRunner true true true)
                     "example/app:latest" "-amd64" true true true quietWorld)))
     = [["docker"; "image"; "push"; "example/app:latest-amd64"];
        ["notary"; "-s"; "https://notary.docker.io";
         "-d"; "/root/.docker/trust"; "addhash"; "-p";
         "docker.io/example/app"; "latest"; "1234"; "--sha256"; sampleHex;
         "-r"; "targets/releases"]].
Proof.
  split; [reflexivity|].
  rewrite (pushWithManifest_signs_pushed_digest (newDockerRunner true true true)
             "example/app:latest" "-amd64" true quietWorld
             ("sha256:" +:+ sampleHex) 1234%Z eq_refl (or_intror eq_refl)
             eq_refl eq_refl).
  reflexivity.
Defined.

Lemma pushWithManifest_sign_needs_manifest_witness :
  dct (newDockerRunner true true true) = true
  /\ exists msg,
      pushWithManifest (newDockerRunner true true true) "example/app:latest"
        "-amd64" false false true quietWorld
      = (Val (Some (Errorf msg)),
         [EvPrint ("Image push disabled, skipping..." +:+ LF);
          EvGetAuth "https://index.docker.io/v1/";
          EvPrint ("Manifest push disabled, skipping..." +:+ LF);
          EvPrint ("Signing manifest for example/app:latest" +:+ LF)]).
Proof.
  split; [reflexivity|].
  exact (pushWithManifest_sign_needs_manifest (newDockerRunner true true true)
           "example/app:latest" "-amd64" false quietWorld eq_refl
           (or_introl eq_refl) eq_refl).
Defined.

Lemma signManifest_extra_colons_witness :
  hasByte ":" "registry.local" = false /\ hasByte ":" "5000/app" = false
  /\ map Args
       (runs (snd (signManifest "registry.local:5000/app:latest"
                     ("sha256:" +:+ sampleHex) 1234 sampleAuth quietWorld)))
     = [["notary"; "-s"; "https://notary.docker.io";
         "-d"; "/root/.docker/trust"; "addhash"; "-p";
         "docker.io/registry.local"; "5000/app"; "1234";
         "--sha256"; sampleHex; "-r"; "targets/releases"]]
  /\ map Args
       (runs (snd (signManifest "example/app:latest"
                     ("sha256:" +:+ sampleHex +:+ ":extra") 1234 sampleAuth
                     quietWorld)))
     = [["notary"; "-s"; "https://notary.docker.io";
         "-d"; "/root/.docker/trust"; "addhash"; "-p";
         "docker.io/example/app"; "latest"; "1234";
         "--sha256"; sampleHex; "-r"; "targets/releases"]].
Proof.
  destruct (signManifest_extra_colons 1234 sampleAuth quietWorld)
    as [Himage Hdigest].
  split; [reflexivity|]. split; [reflexivity|]. split.
  - exact (Himage "registry.local" "5000/app" "latest"
             ("sha256:" +:+ sampleHex) eq_refl eq_refl eq_refl eq_refl).
  - exact (Hdigest "example/app:latest" sampleHex "extra" eq_refl eq_refl).
Defined.

Lemma signManifest_outcome_witness :
  hasByte ":" "example/app" = false
  /\ fst (signManifest "example/app:latest" ("sha256:" +:+ sampleHex) 1234
            sampleAuth noEngineWorld)
     = Val (Some (Errorf ("failed to execute notary-tool: exec: "
                        +:+ quoted "notary"
                        +:+ ": executable file not found in $PATH"))).
Proof.
  split; [reflexivity|].
  exact (f_equal fst
           (signManifest_outcome "example/app" "latest" sampleHex 1234
              sampleAuth noEngineWorld eq_refl eq_refl eq_refl)).
Defined.

Lemma signManifest_unset_environment_witness :
  (lookupEnv passphraseWorld "HOME" = None
   /\ map (fun cmd => nth 4 (Args cmd) "")
        (runs (snd (signManifest "example/app:latest"
                      ("sha256:" +:+ sampleHex) 1234 sampleAuth
                      passphraseWorld)))
      = [".docker/trust"])
  /\ (lookupEnv quietWorld dctEnvVar = None
      /\ map Env
           (runs (snd (signManifest "example/app:latest"
                         ("sha256:" +:+ sampleHex) 1234 sampleAuth
                         quietWorld)))
         = [["HOME=/root"; "NOTARY_DELEGATION_PASSPHRASE=";
             "NOTARY_AUTH=dXNlcjpwYXNz"]]).
Proof.
  split; (split; [reflexivity|]).
  - destruct (signManifest_unset_environment "example/app:latest"
                ("sha256:" +:+ sampleHex) 1234 sampleAuth passphraseWorld
                (notaryCmd passphraseWorld sampleAuth "example/app" "latest"
                   1234 sampleHex)
                (or_introl eq_refl)) as [Hhome _].
    destruct (Hhome eq_refl) as [_ Hdir].
    exact (f_equal (fun d => [d]) Hdir).
  - destruct (signManifest_unset_environment "example/app:latest"
                ("sha256:" +:+ sampleHex) 1234 sampleAuth quietWorld
                (notaryCmd quietWorld sampleAuth "example/app" "latest"
                   1234 sampleHex)
                (or_introl eq_refl)) as [_ Hpass].
    exact (f_equal (fun e => [e]) (Hpass eq_refl)).
Defined.

(** Why X2 asks for an environment without the entry: a process that
    already has [DOCKER_CONTENT_TRUST=1] hands it on, also to the push of
    a runner that does not sign. *)
Example push_inherits_trust :
  map Env
    (runs (snd (push (newDockerRunner true true false) "example/app"
                  trustingWorld)))
  = [["HOME=/root"; "DOCKER_CONTENT_TRUST=1"]].
Proof. reflexivity. Qed.
